(** * Verification of the image compressor front end

    [components/ImageProcessor.tsx] is a React component: sixteen
    [useState] cells and one ref, mutated by event handlers.  The handlers
    are embedded as state transformers that also record, in order, the
    calls they make to the outside world (object URLs, image loading, the
    console, [processImage]).

    JavaScript numbers are embedded as exact rationals ([Q]): the
    arithmetic of the handlers ([/], [*], [Math.min], [Math.max],
    [Math.round], [<=]) is taken on finite values without rounding error.
    Where the rounding of binary64 decides the result, in the two
    callbacks that keep the aspect ratio, the callbacks are embedded again
    on binary64 values in [Module Binary64].

    [lib/processImage] is imported by the component but is not part of the
    sources at hand; the component is parameterised by it, and the pipeline
    stages it is specified to have are modelled separately in
    [Module Pipeline]. *)

From Stdlib Require Import QArith Qminmax Qround ZArith String List Bool Lia Lqa.
From Stdlib Require Import DecimalString FunInd Recdef.
From Stdlib Require PrimFloat FloatOps SpecFloat Uint63.
Import ListNotations.

Local Open Scope string_scope.
Local Open Scope Q_scope.

Module ImageProcessor.

(** ** Data *)

Definition Blob : Type := list Byte.byte.

(** The browser's [File]: the three attributes the component reads. *)
Record File : Type := mkFile {
  file_name : string;
  file_type : string;
  file_size : Q;
  file_bytes : Blob
}.

Inductive OutputFormat : Type := jpeg | png | webp | pdf.

Record Dimensions : Type := mkDimensions {
  dim_width : Q;
  dim_height : Q
}.

Record Point : Type := mkPoint { point_x : Q; point_y : Q }.

Record Area : Type := mkArea {
  area_x : Q;
  area_y : Q;
  area_width : Q;
  area_height : Q
}.

Record ProcessedState : Type := mkProcessedState {
  previewUrl : string;
  filename : string;
  width : Q;
  height : Q;
  size : Q;
  mimeType : string;
  blob : Blob
}.

(** Argument object of [processImage], as built in [handleProcess]. *)
Record ProcessOptions : Type := mkProcessOptions {
  opt_file : File;
  opt_targetWidth : Q;
  opt_targetHeight : Q;
  opt_format : OutputFormat;
  opt_quality : Q;
  opt_cropArea : option Area;
  opt_originalName : string
}.

(** Value the promise of [processImage] resolves to; the fields are the
    ones [handleProcess] reads. *)
Record ProcessResult : Type := mkProcessResult {
  res_url : string;
  res_filename : string;
  res_width : Q;
  res_height : Q;
  res_size : Q;
  res_mimeType : string;
  res_blob : Blob
}.

(** What a [catch] clause can receive: an [Error] with its message, or any
    other thrown value. *)
Inductive Thrown : Type :=
| ErrorObject (message : string)
| OtherValue.

(** How the awaited promise settles. *)
Inductive Settled : Type :=
| Fulfilled (result : ProcessResult)
| Rejected (reason : Thrown).

(** Calls that leave the component. *)
Inductive Effect : Type :=
| RevokeObjectURL (url : string)
| CreateObjectURL (f : File)
| LoadImage (src : string)
| ConsoleError (reason : Thrown)
| CallProcessImage (options : ProcessOptions).

Record State : Type := mkState {
  file : option File;
  imageUrl : option string;
  naturalDimensions : option Dimensions;
  objectUrlRef : option string;
  crop : Point;
  zoom : Q;
  aspect : option Q;
  croppedAreaPixels : option Area;
  targetWidth : Q;
  targetHeight : Q;
  maintainAspect : bool;
  quality : Q;
  format : OutputFormat;
  isProcessing : bool;
  error : option string;
  processed : option ProcessedState
}.

(** One state transformer per [useState] setter (and one for the ref). *)
Definition withFile (v : option File) (st : State) : State :=
  mkState
    v (imageUrl st) (naturalDimensions st) (objectUrlRef st)
    (crop st) (zoom st) (aspect st) (croppedAreaPixels st)
    (targetWidth st) (targetHeight st) (maintainAspect st) (quality st)
    (format st) (isProcessing st) (error st) (processed st).
Definition withImageUrl (v : option string) (st : State) : State :=
  mkState
    (file st) v (naturalDimensions st) (objectUrlRef st)
    (crop st) (zoom st) (aspect st) (croppedAreaPixels st)
    (targetWidth st) (targetHeight st) (maintainAspect st) (quality st)
    (format st) (isProcessing st) (error st) (processed st).
Definition withNaturalDimensions (v : option Dimensions) (st : State) : State :=
  mkState
    (file st) (imageUrl st) v (objectUrlRef st)
    (crop st) (zoom st) (aspect st) (croppedAreaPixels st)
    (targetWidth st) (targetHeight st) (maintainAspect st) (quality st)
    (format st) (isProcessing st) (error st) (processed st).
Definition withObjectUrlRef (v : option string) (st : State) : State :=
  mkState
    (file st) (imageUrl st) (naturalDimensions st) v
    (crop st) (zoom st) (aspect st) (croppedAreaPixels st)
    (targetWidth st) (targetHeight st) (maintainAspect st) (quality st)
    (format st) (isProcessing st) (error st) (processed st).
Definition withCrop (v : Point) (st : State) : State :=
  mkState
    (file st) (imageUrl st) (naturalDimensions st) (objectUrlRef st)
    v (zoom st) (aspect st) (croppedAreaPixels st)
    (targetWidth st) (targetHeight st) (maintainAspect st) (quality st)
    (format st) (isProcessing st) (error st) (processed st).
Definition withZoom (v : Q) (st : State) : State :=
  mkState
    (file st) (imageUrl st) (naturalDimensions st) (objectUrlRef st)
    (crop st) v (aspect st) (croppedAreaPixels st)
    (targetWidth st) (targetHeight st) (maintainAspect st) (quality st)
    (format st) (isProcessing st) (error st) (processed st).
Definition withAspect (v : option Q) (st : State) : State :=
  mkState
    (file st) (imageUrl st) (naturalDimensions st) (objectUrlRef st)
    (crop st) (zoom st) v (croppedAreaPixels st)
    (targetWidth st) (targetHeight st) (maintainAspect st) (quality st)
    (format st) (isProcessing st) (error st) (processed st).
Definition withCroppedAreaPixels (v : option Area) (st : State) : State :=
  mkState
    (file st) (imageUrl st) (naturalDimensions st) (objectUrlRef st)
    (crop st) (zoom st) (aspect st) v
    (targetWidth st) (targetHeight st) (maintainAspect st) (quality st)
    (format st) (isProcessing st) (error st) (processed st).
Definition withTargetWidth (v : Q) (st : State) : State :=
  mkState
    (file st) (imageUrl st) (naturalDimensions st) (objectUrlRef st)
    (crop st) (zoom st) (aspect st) (croppedAreaPixels st)
    v (targetHeight st) (maintainAspect st) (quality st)
    (format st) (isProcessing st) (error st) (processed st).
Definition withTargetHeight (v : Q) (st : State) : State :=
  mkState
    (file st) (imageUrl st) (naturalDimensions st) (objectUrlRef st)
    (crop st) (zoom st) (aspect st) (croppedAreaPixels st)
    (targetWidth st) v (maintainAspect st) (quality st)
    (format st) (isProcessing st) (error st) (processed st).
Definition withMaintainAspect (v : bool) (st : State) : State :=
  mkState
    (file st) (imageUrl st) (naturalDimensions st) (objectUrlRef st)
    (crop st) (zoom st) (aspect st) (croppedAreaPixels st)
    (targetWidth st) (targetHeight st) v (quality st)
    (format st) (isProcessing st) (error st) (processed st).
Definition withQuality (v : Q) (st : State) : State :=
  mkState
    (file st) (imageUrl st) (naturalDimensions st) (objectUrlRef st)
    (crop st) (zoom st) (aspect st) (croppedAreaPixels st)
    (targetWidth st) (targetHeight st) (maintainAspect st) v
    (format st) (isProcessing st) (error st) (processed st).
Definition withFormat (v : OutputFormat) (st : State) : State :=
  mkState
    (file st) (imageUrl st) (naturalDimensions st) (objectUrlRef st)
    (crop st) (zoom st) (aspect st) (croppedAreaPixels st)
    (targetWidth st) (targetHeight st) (maintainAspect st) (quality st)
    v (isProcessing st) (error st) (processed st).
Definition withIsProcessing (v : bool) (st : State) : State :=
  mkState
    (file st) (imageUrl st) (naturalDimensions st) (objectUrlRef st)
    (crop st) (zoom st) (aspect st) (croppedAreaPixels st)
    (targetWidth st) (targetHeight st) (maintainAspect st) (quality st)
    (format st) v (error st) (processed st).
Definition withError (v : option string) (st : State) : State :=
  mkState
    (file st) (imageUrl st) (naturalDimensions st) (objectUrlRef st)
    (crop st) (zoom st) (aspect st) (croppedAreaPixels st)
    (targetWidth st) (targetHeight st) (maintainAspect st) (quality st)
    (format st) (isProcessing st) v (processed st).
Definition withProcessed (v : option ProcessedState) (st : State) : State :=
  mkState
    (file st) (imageUrl st) (naturalDimensions st) (objectUrlRef st)
    (crop st) (zoom st) (aspect st) (croppedAreaPixels st)
    (targetWidth st) (targetHeight st) (maintainAspect st) (quality st)
    (format st) (isProcessing st) (error st) v.

(** State on first render: the initial value of every hook. *)
Definition initialState : State :=
  mkState None None None None (mkPoint 0 0) 1 None None
          0 0 true 80 jpeg false None None.

(** ** Handlers as state transformers with an effect log *)

Definition Handler (A : Type) : Type := State -> A * State * list Effect.

Definition ret {A : Type} (a : A) : Handler A := fun st => (a, st, []).

Definition bind {A B : Type} (m : Handler A) (k : A -> Handler B) : Handler B :=
  fun st =>
    let r1 := m st in
    let r2 := k (fst (fst r1)) (snd (fst r1)) in
    (fst (fst r2), snd (fst r2), (snd r1 ++ snd r2)%list).

Definition snapshot : Handler State := fun st => (st, st, []).
Definition update (f : State -> State) : Handler unit := fun st => (tt, f st, []).
Definition emit (e : Effect) : Handler unit := fun st => (tt, st, [e]).

Definition stateAfter {A : Type} (r : A * State * list Effect) : State := snd (fst r).
Definition effectsOf {A : Type} (r : A * State * list Effect) : list Effect := snd r.

Declare Scope handler_scope.
Delimit Scope handler_scope with handler.
Notation "x <- m ;; k" := (bind m (fun x => k))
  (at level 100, m at next level, right associativity) : handler_scope.
Notation "m ;; k" := (bind m (fun _ => k))
  (at level 100, right associativity) : handler_scope.
Local Open Scope handler_scope.

Definition setFile v := update (withFile v).
Definition setImageUrl v := update (withImageUrl v).
Definition setNaturalDimensions v := update (withNaturalDimensions v).
Definition setObjectUrlRef v := update (withObjectUrlRef v).
Definition setCrop v := update (withCrop v).
Definition setZoom v := update (withZoom v).
Definition setAspect v := update (withAspect v).
Definition setCroppedAreaPixels v := update (withCroppedAreaPixels v).
Definition setTargetWidth v := update (withTargetWidth v).
Definition setTargetHeight v := update (withTargetHeight v).
Definition setMaintainAspect v := update (withMaintainAspect v).
Definition setQuality v := update (withQuality v).
Definition setFormat v := update (withFormat v).
Definition setIsProcessing v := update (withIsProcessing v).
Definition setError v := update (withError v).
Definition setProcessed v := update (withProcessed v).

(** ** JavaScript primitives used by the handlers *)

(** [Math.round]: nearest integer, halves towards plus infinity. *)
Definition Math_round (x : Q) : Q := inject_Z (Qfloor (x + (1 # 2))).
Definition Math_min (a b : Q) : Q := Qmin a b.
Definition Math_max (a b : Q) : Q := Qmax a b.
(** [a <= b] on numbers. *)
Definition lessOrEqual (a b : Q) : bool := Qle_bool a b.
(** [s.startsWith(p)]. *)
Definition startsWith (s p : string) : bool := String.prefix p s.

Definition isError (e : Thrown) : bool :=
  match e with ErrorObject _ => true | OtherValue => false end.

(** ** The component's callbacks *)

Definition resetState : Handler unit :=
  setCrop (mkPoint 0 0) ;;
  setZoom 1 ;;
  setAspect None ;;
  setCroppedAreaPixels None ;;
  setQuality 80 ;;
  setFormat jpeg ;;
  setProcessed None ;;
  setError None.

Section Component.

(** [URL.createObjectURL], as the URL it hands back for a file. *)
Variable createObjectURL : File -> string.
(** [processImage] from [lib/processImage], as the way its promise settles. *)
Variable processImage : ProcessOptions -> Settled.

(** [handleFileChange]; the argument is [event.target.files?.[0]]. *)
Definition handleFileChange (selected : option File) : Handler unit :=
  match selected with
  | None => ret tt
  | Some selectedFile =>
    if negb (startsWith (file_type selectedFile) "image/")
       && negb (file_type selectedFile =? "application/pdf")%string
    then setError (Some "Please select a valid image or PDF file")
    else
      before <- snapshot ;;
      match objectUrlRef before with
      | Some old => (emit (RevokeObjectURL old) ;; setObjectUrlRef None)
      | None => ret tt
      end ;;
      let url := createObjectURL selectedFile in
      emit (CreateObjectURL selectedFile) ;;
      setObjectUrlRef (Some url) ;;
      setFile (Some selectedFile) ;;
      setImageUrl (Some url) ;;
      resetState ;;
      if (file_type selectedFile =? "application/pdf")%string
      then
        setError (Some "PDF import is not supported yet. Please select an image format.") ;;
        setNaturalDimensions None
      else emit (LoadImage url)
  end.

(** [image.onload] of the image created by [handleFileChange]. *)
Definition image_onload (naturalWidth naturalHeight : Q) : Handler unit :=
  setNaturalDimensions (Some (mkDimensions naturalWidth naturalHeight)) ;;
  setTargetWidth naturalWidth ;;
  setTargetHeight naturalHeight.

(** [image.onerror] of the same image. *)
Definition image_onerror : Handler unit :=
  setError (Some "Could not load the selected image.") ;;
  setNaturalDimensions None.

Definition handleWidthChange (value : Q) : Handler unit :=
  props <- snapshot ;;
  match naturalDimensions props with
  | None => ret tt
  | Some nd =>
    setTargetWidth value ;;
    if maintainAspect props then
      let ratio := dim_height nd / dim_width nd in
      setTargetHeight (Math_round (value * ratio))
    else ret tt
  end.

Definition handleHeightChange (value : Q) : Handler unit :=
  props <- snapshot ;;
  match naturalDimensions props with
  | None => ret tt
  | Some nd =>
    setTargetHeight value ;;
    if maintainAspect props then
      let ratio := dim_width nd / dim_height nd in
      setTargetWidth (Math_round (value * ratio))
    else ret tt
  end.

Definition onCropComplete (croppedPixels : Area) : Handler unit :=
  setCroppedAreaPixels (Some croppedPixels).

(** The object literal passed to [processImage]; [props] are the values the
    callback closed over. *)
Definition processOptions (props : State) (f : File) : ProcessOptions :=
  let qualityValue := Math_min (Math_max (quality props / 100) (1 # 100)) 1 in
  mkProcessOptions
    f
    (targetWidth props)
    (targetHeight props)
    (format props)
    (match format props with png => 1 | _ => qualityValue end)
    (croppedAreaPixels props)
    (file_name f).

(** The part of [handleProcess] that runs once the awaited promise has
    settled: the rest of the [try] block, the [catch] clause, then
    [finally]. *)
Definition handleProcess_settled (outcome : Settled) : Handler unit :=
  match outcome with
  | Fulfilled result =>
    setProcessed (Some (mkProcessedState
      (res_url result) (res_filename result) (res_width result)
      (res_height result) (res_size result) (res_mimeType result)
      (res_blob result)))
  | Rejected processingError =>
    emit (ConsoleError processingError) ;;
    setError (Some
      match processingError with
      | ErrorObject message => message
      | OtherValue => "Something went wrong while processing the image"
      end)
  end ;;
  setIsProcessing false.

Definition handleProcess : Handler unit :=
  props <- snapshot ;;
  match file props, naturalDimensions props with
  | Some f, Some _ =>
    if lessOrEqual (targetWidth props) 0 || lessOrEqual (targetHeight props) 0
    then setError (Some "Please provide valid output dimensions")
    else
      setIsProcessing true ;;
      setError None ;;
      let options := processOptions props f in
      emit (CallProcessImage options) ;;
      handleProcess_settled (processImage options)
  | _, _ => setError (Some "Upload an image to get started")
  end.

End Component.

(** ** The rest of the component *)

(** The synchronous part of [handleProcess], up to the [await]: the guards,
    the two setters and the call.  It returns the options of the call it
    made, if it made one. *)
Definition handleProcess_started : Handler (option ProcessOptions) :=
  props <- snapshot ;;
  match file props, naturalDimensions props with
  | Some f, Some _ =>
    if lessOrEqual (targetWidth props) 0 || lessOrEqual (targetHeight props) 0
    then (setError (Some "Please provide valid output dimensions") ;; ret None)
    else
      setIsProcessing true ;;
      setError None ;;
      let options := processOptions props f in
      emit (CallProcessImage options) ;;
      ret (Some options)
  | _, _ => (setError (Some "Upload an image to get started") ;; ret None)
  end.

(** Cleanup of the mount effect: the object URL still held by the ref is
    revoked. *)
Definition unmount : Handler unit :=
  before <- snapshot ;;
  match objectUrlRef before with
  | Some url => (emit (RevokeObjectURL url) ;; setObjectUrlRef None)
  | None => ret tt
  end.

(** [onChange] of the "Crop with locked ratio" checkbox. *)
Definition handleCropRatioToggle (checked : bool) : Handler unit :=
  props <- snapshot ;;
  setAspect
    match checked, naturalDimensions props with
    | true, Some nd => Some (dim_width nd / dim_height nd)
    | _, _ => None
    end.

(** What [handleDownload] does to the document. *)
Inductive DomEffect : Type :=
| CreateAnchor
| SetHref (url : string)
| SetDownload (name : string)
| AppendToBody
| Click
| RemoveFromBody.

Definition handleDownload (props : State) : list DomEffect :=
  match processed props with
  | None => []
  | Some p =>
    [CreateAnchor; SetHref (previewUrl p); SetDownload (filename p);
     AppendToBody; Click; RemoveFromBody]
  end.

(** The local [gcd] of [aspectRatioText].  It is only ever applied to
    [naturalWidth] and [naturalHeight], which the DOM gives as integers, and
    is embedded on integers; [%] is the remainder that takes the sign of the
    dividend. *)
Function gcd (a b : Z) {measure Z.abs_nat b} : Z :=
  if Z.eq_dec b 0 then a else gcd b (Z.rem a b).
Proof.
  intros a b nonzero _. pose proof (Z.rem_bound_abs a b nonzero). lia.
Defined.

(** Decimal rendering of an integral number in a template literal. *)
Definition numberToString (x : Q) : string :=
  NilZero.string_of_int (Z.to_int (Qfloor x)).

Definition aspectRatioText (nd : option Dimensions) : string :=
  match nd with
  | None => ""
  | Some d =>
    let divisor := inject_Z (gcd (Qfloor (dim_width d)) (Qfloor (dim_height d))) in
    numberToString (Math_round (dim_width d / divisor)) ++ ":" ++
    numberToString (Math_round (dim_height d / divisor))
  end.

(** ** The component in its environment

    Between two callbacks the browser holds what the component has asked
    for: images that are still loading, promises of [processImage] that
    have not settled, object URLs that have not been revoked. *)

Record System : Type := mkSystem {
  ui : State;
  loading : list string;
  inFlight : list ProcessOptions;
  liveUrls : list string
}.

Definition initialSystem : System := mkSystem initialState [] [] [].

Fixpoint removeOne (url : string) (l : list string) : list string :=
  match l with
  | [] => []
  | x :: rest => if (x =? url)%string then rest else x :: removeOne url rest
  end.

Section Environment.

Variable createObjectURL : File -> string.

(** The browser's side of one effect. *)
Definition absorb (s : System) (e : Effect) : System :=
  match e with
  | RevokeObjectURL url => mkSystem (ui s) (loading s) (inFlight s) (removeOne url (liveUrls s))
  | CreateObjectURL f => mkSystem (ui s) (loading s) (inFlight s) (createObjectURL f :: liveUrls s)
  | LoadImage src => mkSystem (ui s) (loading s ++ [src]) (inFlight s) (liveUrls s)
  | ConsoleError _ => s
  | CallProcessImage options => mkSystem (ui s) (loading s) (inFlight s ++ [options]) (liveUrls s)
  end.

(** One callback runs to completion on the current state; the browser then
    takes its effects in order. *)
Definition perform {A : Type} (h : Handler A) (s : System) : System :=
  let r := h (ui s) in
  fold_left absorb (effectsOf r)
            (mkSystem (stateAfter r) (loading s) (inFlight s) (liveUrls s)).

(** The events the rendered page lets through.  The dimension, format and
    quality controls exist only once [naturalDimensions] is known; the
    cropper, the zoom slider and the button also need [imageUrl]; the
    quality slider is disabled for PNG and the button while processing. *)
Inductive step : System -> System -> Prop :=
| step_file_picked s selected :
    step s (perform (handleFileChange createObjectURL selected) s)
| step_image_loaded s before src after naturalWidth naturalHeight :
    loading s = (before ++ src :: after)%list ->
    step s (perform (image_onload naturalWidth naturalHeight)
                    (mkSystem (ui s) (before ++ after) (inFlight s) (liveUrls s)))
| step_image_failed s before src after :
    loading s = (before ++ src :: after)%list ->
    step s (perform image_onerror
                    (mkSystem (ui s) (before ++ after) (inFlight s) (liveUrls s)))
| step_width_typed s value :
    naturalDimensions (ui s) <> None ->
    step s (perform (handleWidthChange value) s)
| step_height_typed s value :
    naturalDimensions (ui s) <> None ->
    step s (perform (handleHeightChange value) s)
| step_lock_toggled s checked :
    naturalDimensions (ui s) <> None ->
    step s (perform (setMaintainAspect checked) s)
| step_crop_ratio_toggled s checked :
    naturalDimensions (ui s) <> None ->
    step s (perform (handleCropRatioToggle checked) s)
| step_quality_moved s value :
    naturalDimensions (ui s) <> None -> format (ui s) <> png ->
    step s (perform (setQuality value) s)
| step_format_chosen s f :
    naturalDimensions (ui s) <> None ->
    step s (perform (setFormat f) s)
| step_crop_moved s p :
    imageUrl (ui s) <> None -> naturalDimensions (ui s) <> None ->
    step s (perform (setCrop p) s)
| step_zoom_moved s z :
    imageUrl (ui s) <> None -> naturalDimensions (ui s) <> None ->
    step s (perform (setZoom z) s)
| step_crop_complete s area :
    imageUrl (ui s) <> None -> naturalDimensions (ui s) <> None ->
    step s (perform (onCropComplete area) s)
| step_process_clicked s :
    imageUrl (ui s) <> None -> naturalDimensions (ui s) <> None ->
    isProcessing (ui s) = false ->
    step s (perform handleProcess_started s)
| step_promise_settled s before options after outcome :
    inFlight s = (before ++ options :: after)%list ->
    step s (perform (handleProcess_settled outcome)
                    (mkSystem (ui s) (loading s) (before ++ after) (liveUrls s))).

Inductive reachable : System -> Prop :=
| reachable_initial : reachable initialSystem
| reachable_step s s' : reachable s -> step s s' -> reachable s'.

End Environment.

End ImageProcessor.

(** * The dimension callbacks on binary64 numbers

    [handleWidthChange] and [handleHeightChange] divide, multiply and
    round, and the integer they arrive at depends on how the quotient is
    rounded.  Here they are embedded on IEEE 754 binary64 values, the
    numbers of JavaScript, over the four cells they read or set. *)

Module Binary64.

Import PrimFloat.
Local Open Scope float_scope.

Definition number : Type := float.

(** The number with integral value [n], for [n] below 2^53 in magnitude. *)
Definition integerToNumber (n : Z) : number :=
  if (n <? 0)%Z then - of_uint63 (Uint63.of_Z (- n))
  else of_uint63 (Uint63.of_Z n).

(** [Math.round]: the integral number closest to [x], the one towards plus
    infinity on a tie; NaN, the infinities, the zeros and integral values
    are returned as they are, and a result of zero keeps the sign of [x].
    A finite [x] is [m * 2^e] with [m] a positive integer, read off its
    representation, and the rounding is computed on integers. *)
Definition Math_round (x : number) : number :=
  match FloatOps.Prim2SF x with
  | SpecFloat.S754_finite negative m e =>
    if (0 <=? e)%Z then x
    else
      let z := if negative then Z.neg m else Z.pos m in
      let n := ((2 * z + 2 ^ (- e)) / 2 ^ (1 - e))%Z in
      if (n =? 0)%Z then (if negative then - 0 else 0)
      else integerToNumber n
  | _ => x
  end.

Record Dimensions : Type := mkDimensions {
  dim_width : number;
  dim_height : number
}.

(** The cells of the component that the two callbacks close over
    ([naturalDimensions], [maintainAspect]) or set ([targetWidth],
    [targetHeight]). *)
Record Cells : Type := mkCells {
  naturalDimensions : option Dimensions;
  targetWidth : number;
  targetHeight : number;
  maintainAspect : bool
}.

Definition setTargetWidth (v : number) (st : Cells) : Cells :=
  mkCells (naturalDimensions st) v (targetHeight st) (maintainAspect st).
Definition setTargetHeight (v : number) (st : Cells) : Cells :=
  mkCells (naturalDimensions st) (targetWidth st) v (maintainAspect st).

Definition handleWidthChange (value : number) (st : Cells) : Cells :=
  match naturalDimensions st with
  | None => st
  | Some nd =>
    let st1 := setTargetWidth value st in
    if maintainAspect st then
      let ratio := dim_height nd / dim_width nd in
      setTargetHeight (Math_round (value * ratio)) st1
    else st1
  end.

Definition handleHeightChange (value : number) (st : Cells) : Cells :=
  match naturalDimensions st with
  | None => st
  | Some nd =>
    let st1 := setTargetHeight value st in
    if maintainAspect st then
      let ratio := dim_width nd / dim_height nd in
      setTargetWidth (Math_round (value * ratio)) st1
    else st1
  end.

(** A 600 x 1300 image with the lock on, at its natural size. *)
Definition portrait : Cells := mkCells (Some (mkDimensions 600 1300)) 600 1300 true.

End Binary64.

(** * The transform pipeline behind [processImage]

    The component hands its request to [processImage], whose file is not
    among the sources.  Its four stages (decoder, geometry resolver,
    resampler, encoder) are modelled here from their written contracts.
    The host platform's codec is a parameter of the model. *)

Module Pipeline.

Import ImageProcessor.

Inductive Result (E A : Type) : Type :=
| Ok (value : A)
| Err (e : E).
Arguments Ok {E A} value.
Arguments Err {E A} e.

Inductive DecodeError : Type := Unsupported | Corrupt.
Inductive GeometryError : Type := EmptyCrop | InvalidTarget.
Inductive ResampleError : Type := OutOfMemory.
Inductive EncodeError : Type := UnsupportedFormat | EncoderFailure.

Inductive PipelineError : Type :=
| DecodeFailed (e : DecodeError)
| GeometryFailed (e : GeometryError)
| ResampleFailed (e : ResampleError)
| EncodeFailed (e : EncodeError).

(** RGBA8 pixel: four channels in 0..255. *)
Record Pixel : Type := mkPixel { red : Z; green : Z; blue : Z; alpha : Z }.

(** Modelled from the spec: the SourceImage entity of the missing
    [lib/processImage], a raster surface with its width, height and
    row-major pixel buffer. *)
Record SourceImage : Type := mkSourceImage {
  src_width : Z;
  src_height : Z;
  src_pixels : list Pixel
}.

(** Modelled from the spec: the CropRect entity of the missing
    [lib/processImage], in source-pixel coordinates. *)
Record CropRect : Type := mkCropRect {
  crop_x : Q;
  crop_y : Q;
  crop_width : Q;
  crop_height : Q
}.

Record TargetDimensions : Type := mkTarget {
  target_width : Z;
  target_height : Z
}.

(** Modelled from the spec: the ResolvedPlan of the missing
    [lib/processImage], carrying the clamped crop rectangle and the two
    scale factors, and nothing else. *)
Record ResolvedPlan : Type := mkPlan {
  plan_crop : CropRect;
  plan_sx : Q;
  plan_sy : Q
}.

Record PixelBuffer : Type := mkPixelBuffer {
  buf_width : Z;
  buf_height : Z;
  buf_pixels : list Pixel
}.

(** Modelled from the spec: the EncodedResult of the missing
    [lib/processImage]; the suggested file name, which the encoder contract
    has no input for, is left out. *)
Record EncodedResult : Type := mkEncoded {
  enc_bytes : list Byte.byte;
  enc_width : Z;
  enc_height : Z;
  enc_byteSize : nat;
  enc_mimeType : string
}.

(** Field-wise equality of rectangles as numbers. *)
Definition sameRect (a b : CropRect) : Prop :=
  crop_x a == crop_x b /\ crop_y a == crop_y b /\
  crop_width a == crop_width b /\ crop_height a == crop_height b.

(** ** Geometry resolver *)

Definition fullSource (sw sh : Z) : CropRect :=
  mkCropRect 0 0 (inject_Z sw) (inject_Z sh).

(** Modelled from the spec: the clamp policy of the missing geometry
    resolver, the intersection of the crop rectangle with the source
    bounds. *)
Definition clampCrop (sw sh : Z) (c : CropRect) : CropRect :=
  let left := Qmax (crop_x c) 0 in
  let top := Qmax (crop_y c) 0 in
  let right := Qmin (crop_x c + crop_width c) (inject_Z sw) in
  let bottom := Qmin (crop_y c + crop_height c) (inject_Z sh) in
  mkCropRect left top (right - left) (bottom - top).

Definition effectiveCrop (sw sh : Z) (crop : option CropRect) : CropRect :=
  match crop with
  | None => fullSource sw sh
  | Some c => clampCrop sw sh c
  end.

(** Modelled from the spec: [resolve(sourceDims, cropRect?, targetDims)] of
    the missing [lib/processImage].  The crop is settled first, the target
    second, in the order the contract lists them. *)
Definition resolve (sw sh : Z) (crop : option CropRect) (t : TargetDimensions)
  : Result GeometryError ResolvedPlan :=
  let c := effectiveCrop sw sh crop in
  if Qle_bool (crop_width c) 0 || Qle_bool (crop_height c) 0 then Err EmptyCrop
  else if (target_width t <=? 0)%Z || (target_height t <=? 0)%Z then Err InvalidTarget
  else Ok (mkPlan c (inject_Z (target_width t) / crop_width c)
                    (inject_Z (target_height t) / crop_height c)).

(** ** Quality and pixel helpers of the encoder *)

(** Modelled from the spec: quality outside [0,1] is clamped to the nearest
    bound by the missing encoder. *)
Definition clampQuality (q : Q) : Q := Qmax 0 (Qmin q 1).

(** JPEG has no alpha channel: composite over an opaque white background. *)
Definition flattenPixel (p : Pixel) : Pixel :=
  let over c := ((c * alpha p + 255 * (255 - alpha p)) / 255)%Z in
  mkPixel (over (red p)) (over (green p)) (over (blue p)) 255.

Definition flattenAlpha (b : PixelBuffer) : PixelBuffer :=
  mkPixelBuffer (buf_width b) (buf_height b) (map flattenPixel (buf_pixels b)).

Definition hasAlpha (b : PixelBuffer) : bool :=
  existsb (fun p => (alpha p <? 255)%Z) (buf_pixels b).

Section Host.

(** The host platform's decoder: the surface for the bytes, if they decode. *)
Variable hostDecode : list Byte.byte -> option SourceImage.
(** The interpolation filter: the colour of the source at a point, for a
    footprint of the given extent. *)
Variable sampleFilter : SourceImage -> Q -> Q -> Q -> Q -> Pixel.
(** The host platform's encoder: surface, MIME type, and quality in [0,1]
    ([None] asks for lossless). *)
Variable hostEncode : PixelBuffer -> string -> option Q -> option (list Byte.byte).
(** The single-page PDF container around an encoded image stream. *)
Variable pdfDocument : string -> Z -> Z -> list Byte.byte -> list Byte.byte.

(** Modelled from the spec: [decode(bytes, declaredMimeType)] of the missing
    [lib/processImage]; a declared type that is not an image is
    unsupported, undecodable bytes or a zero-sized surface are corrupt. *)
Definition decode (bytes : list Byte.byte) (declaredMimeType : string)
  : Result DecodeError SourceImage :=
  if negb (startsWith declaredMimeType "image/") then Err Unsupported
  else match hostDecode bytes with
       | None => Err Corrupt
       | Some s =>
         if (src_width s <=? 0)%Z || (src_height s <=? 0)%Z then Err Corrupt
         else Ok s
       end.

(** ** Resampler *)

Definition nearestInteger (x : Q) : Z := Qfloor (x + (1 # 2)).

(** The plan carries no target size: the destination extent is the crop
    extent times the scale factor. *)
Definition destinationWidth (p : ResolvedPlan) : Z :=
  nearestInteger (crop_width (plan_crop p) * plan_sx p).
Definition destinationHeight (p : ResolvedPlan) : Z :=
  nearestInteger (crop_height (plan_crop p) * plan_sy p).

(** The source point a destination pixel centre maps back to. *)
Definition sourceX (p : ResolvedPlan) (i : nat) : Q :=
  crop_x (plan_crop p) + (inject_Z (Z.of_nat i) + (1 # 2)) / plan_sx p.
Definition sourceY (p : ResolvedPlan) (j : nat) : Q :=
  crop_y (plan_crop p) + (inject_Z (Z.of_nat j) + (1 # 2)) / plan_sy p.

Definition resampleRow (s : SourceImage) (p : ResolvedPlan) (j : nat) : list Pixel :=
  map (fun i => sampleFilter s (sourceX p i) (sourceY p j) (/ plan_sx p) (/ plan_sy p))
      (seq 0 (Z.to_nat (destinationWidth p))).

(** Modelled from the spec: [resample(sourceImage, plan)] of the missing
    [lib/processImage]; every destination pixel, row by row, is the
    filtered colour of the source point it maps back to. *)
Definition resample (s : SourceImage) (p : ResolvedPlan) : PixelBuffer :=
  mkPixelBuffer
    (destinationWidth p)
    (destinationHeight p)
    (flat_map (resampleRow s p) (seq 0 (Z.to_nat (destinationHeight p)))).

(** Stages one to three in order; a failure at any stage aborts. *)
Definition decodeAndResample (bytes : list Byte.byte) (declaredMimeType : string)
    (crop : option CropRect) (t : TargetDimensions)
  : Result PipelineError PixelBuffer :=
  match decode bytes declaredMimeType with
  | Err e => Err (DecodeFailed e)
  | Ok s =>
    match resolve (src_width s) (src_height s) crop t with
    | Err e => Err (GeometryFailed e)
    | Ok plan => Ok (resample s plan)
    end
  end.

(** ** Encoder *)

Definition packaged (b : PixelBuffer) (mime : string) (out : option (list Byte.byte))
  : Result EncodeError EncodedResult :=
  match out with
  | None => Err EncoderFailure
  | Some bytes =>
    Ok (mkEncoded bytes (buf_width b) (buf_height b) (length bytes) mime)
  end.

(** Modelled from the spec: [encode(pixelBuffer, format, quality)] of the
    missing [lib/processImage], by case on the format, after the quality
    has been clamped. *)
Definition encode (b : PixelBuffer) (f : OutputFormat) (q : Q)
  : Result EncodeError EncodedResult :=
  let q' := clampQuality q in
  match f with
  | jpeg => packaged b "image/jpeg" (hostEncode (flattenAlpha b) "image/jpeg" (Some q'))
  | png => packaged b "image/png" (hostEncode b "image/png" None)
  | webp =>
    packaged b "image/webp"
      (hostEncode b "image/webp" (if Qle_bool (999 # 1000) q' then None else Some q'))
  | pdf =>
    let inner :=
      if hasAlpha b then hostEncode b "image/png" None
      else hostEncode b "image/jpeg" (Some q') in
    packaged b "application/pdf"
      (option_map
         (pdfDocument (if hasAlpha b then "image/png" else "image/jpeg")
                      (buf_width b) (buf_height b))
         inner)
  end.

End Host.

End Pipeline.

(** * Properties of the component *)

Import ImageProcessor.
Local Open Scope handler_scope.

(** A loaded photograph, used to exercise the statements below. *)
Definition holiday : File := mkFile "holiday.jpg" "image/jpeg" 2048 [].
Definition notes : File := mkFile "notes.txt" "text/plain" 12 [].
Definition report : File := mkFile "report.pdf" "application/pdf" 4096 [].
Definition blobUrl (f : File) : string := "blob:" ++ file_name f.
Definition failing (_ : ProcessOptions) : Settled := Rejected (ErrorObject "canvas is empty").
Definition succeeding (o : ProcessOptions) : Settled :=
  Fulfilled (mkProcessResult "blob:out" "holiday.jpg" (opt_targetWidth o)
               (opt_targetHeight o) 1024 "image/jpeg" []).

(** The state once [holiday] (4000 x 3000) has been picked and has loaded. *)
Definition loaded : State :=
  mkState (Some holiday) (Some (blobUrl holiday)) (Some (mkDimensions 4000 3000))
          (Some (blobUrl holiday)) (mkPoint 0 0) 1 None None
          4000 3000 true 80 jpeg false None None.

(** The same state with a result of an earlier run on display. *)
Definition earlier : ProcessedState :=
  mkProcessedState "blob:earlier" "holiday.webp" 800 600 512 "image/webp" [].
Definition loadedWithResult : State := withProcessed (Some earlier) loaded.

(** A 4 x 3 opaque grey surface and a host that decodes every file to it,
    samples by a constant colour and encodes to an empty stream. *)
Definition grey : Pipeline.Pixel := Pipeline.mkPixel 128 128 128 255.
Definition smallSurface : Pipeline.SourceImage :=
  Pipeline.mkSourceImage 4 3 (repeat grey 12).
Definition smallBuffer : Pipeline.PixelBuffer :=
  Pipeline.mkPixelBuffer 4 3 (repeat grey 12).
Definition decodesToSmall (_ : list Byte.byte) : option Pipeline.SourceImage :=
  Some smallSurface.
Definition constantFilter (_ : Pipeline.SourceImage) (_ _ _ _ : Q) : Pipeline.Pixel := grey.
Definition emptyStream (_ : Pipeline.PixelBuffer) (_ : string) (_ : option Q)
  : option (list Byte.byte) := Some [].
Definition bareDocument (_ : string) (_ _ : Z) (stream : list Byte.byte)
  : list Byte.byte := stream.

(** The result record [handleProcess] stores for a fulfilled promise. *)
Definition stored (res : ProcessResult) : ProcessedState :=
  mkProcessedState (res_url res) (res_filename res) (res_width res)
                   (res_height res) (res_size res) (res_mimeType res) (res_blob res).

(** The effects of replacing the object URL held by the ref. *)
Definition urlTurnover (createObjectURL : File -> string) (st : State) (f : File)
  : list Effect :=
  match objectUrlRef st with
  | Some old => [RevokeObjectURL old; CreateObjectURL f]
  | None => [CreateObjectURL f]
  end.

(** The state right after an image file has been accepted. *)
Definition afterImagePicked (url : string) (st : State) (f : File) : State :=
  mkState (Some f) (Some url) (naturalDimensions st) (Some url)
          (mkPoint 0 0) 1 None None
          (targetWidth st) (targetHeight st) (maintainAspect st)
          80 jpeg (isProcessing st) None None.

(** The object URLs the ref accounts for. *)
Definition held (ref : option string) : list string :=
  match ref with
  | Some url => [url]
  | None => []
  end.

(** What holds of the component and its environment between callbacks. *)
Record Consistent (s : System) : Prop := mkConsistent {
  busy_one : isProcessing (ui s) = true -> exists o, inFlight s = [o];
  idle_none : isProcessing (ui s) = false -> inFlight s = [];
  urls_held : liveUrls s = held (objectUrlRef (ui s));
  url_shown : imageUrl (ui s) = objectUrlRef (ui s);
  file_shown : file (ui s) = None <-> imageUrl (ui s) = None;
  nothing_without_file :
    file (ui s) = None -> naturalDimensions (ui s) = None /\ loading s = []
}.

(** The page after [holiday] has been picked, has loaded, and the button has
    been pressed. *)
Definition pickedSystem : System :=
  perform blobUrl (handleFileChange blobUrl (Some holiday)) initialSystem.
Definition loadedSystem : System :=
  perform blobUrl (image_onload 4000 3000)
          (mkSystem (ui pickedSystem) [] (inFlight pickedSystem) (liveUrls pickedSystem)).
Definition busySystem : System := perform blobUrl handleProcess_started loadedSystem.

(** The page after [holiday] has been picked, then [report] before the
    photograph had loaded, and the photograph's load event has arrived. *)
Definition pdfPickedSystem : System :=
  perform blobUrl (handleFileChange blobUrl (Some report)) pickedSystem.
Definition revivedSystem : System :=
  perform blobUrl (image_onload 4000 3000)
          (mkSystem (ui pdfPickedSystem) [] (inFlight pdfPickedSystem)
                    (liveUrls pdfPickedSystem)).

Section ComponentProperties.

Variable processImage : ProcessOptions -> Settled.

(** The target guard of [handleProcess] as a proposition. *)
Lemma target_guard_true (st : State) :
  targetWidth st <= 0 \/ targetHeight st <= 0 ->
  lessOrEqual (targetWidth st) 0 || lessOrEqual (targetHeight st) 0 = true.
Proof.
  unfold lessOrEqual. intros [H | H]; apply Qle_bool_iff in H; rewrite H.
  - reflexivity.
  - apply orb_true_r.
Qed.

Lemma target_guard_false (st : State) :
  0 < targetWidth st -> 0 < targetHeight st ->
  lessOrEqual (targetWidth st) 0 || lessOrEqual (targetHeight st) 0 = false.
Proof.
  unfold lessOrEqual. intros Hw Hh. apply orb_false_iff. split.
  - destruct (Qle_bool (targetWidth st) 0) eqn:E; [| reflexivity].
    apply Qle_bool_iff in E. lra.
  - destruct (Qle_bool (targetHeight st) 0) eqn:E; [| reflexivity].
    apply Qle_bool_iff in E. lra.
Qed.

(** What [handleProcess] does once both guards are passed. *)
Lemma handleProcess_runs (st : State) (f : File) (nd : Dimensions) :
  file st = Some f -> naturalDimensions st = Some nd ->
  0 < targetWidth st -> 0 < targetHeight st ->
  handleProcess processImage st =
    bind (emit (CallProcessImage (processOptions st f)))
         (fun _ => handleProcess_settled (processImage (processOptions st f)))
         (withError None (withIsProcessing true st)).
Proof.
  intros Hf Hn Hw Hh.
  unfold handleProcess, bind at 1, snapshot. cbn [fst snd].
  rewrite Hf, Hn, (target_guard_false st Hw Hh).
  reflexivity.
Qed.

(** Every call of [processImage] made by [handleProcess] comes after both
    guards and carries the options built from the closed-over state. *)
Lemma handleProcess_calls (st : State) (o : ProcessOptions) :
  In (CallProcessImage o) (effectsOf (handleProcess processImage st)) ->
  exists f, file st = Some f /\ naturalDimensions st <> None /\
            0 < targetWidth st /\ 0 < targetHeight st /\
            o = processOptions st f.
Proof.
  unfold handleProcess, effectsOf, bind at 1, snapshot. cbn [fst snd].
  destruct (file st) as [f |] eqn:Hf; [| cbn; tauto].
  destruct (naturalDimensions st) as [nd |] eqn:Hn; [| cbn; tauto].
  destruct (lessOrEqual (targetWidth st) 0 || lessOrEqual (targetHeight st) 0) eqn:G;
    [cbn; tauto |].
  apply orb_false_iff in G. destruct G as [Gw Gh]. unfold lessOrEqual in *.
  intros Hin. exists f. repeat split; try congruence.
  - apply Qnot_le_lt. intros C. apply Qle_bool_iff in C. congruence.
  - apply Qnot_le_lt. intros C. apply Qle_bool_iff in C. congruence.
  - cbn in Hin. destruct Hin as [Hin | Hin]; [congruence |].
    destruct (processImage (processOptions st f)); cbn in Hin.
    + tauto.
    + destruct Hin as [Hin | Hin]; [discriminate | tauto].
Qed.

(** C3.  With a file and its natural dimensions loaded and a target width
    or height that is not positive, [handleProcess] sets the error "Please
    provide valid output dimensions" and returns before [processImage] is
    invoked: no call is made and no other state changes. *)
Theorem handleProcess_invalid_target (st : State) (f : File) (nd : Dimensions) :
  file st = Some f -> naturalDimensions st = Some nd ->
  targetWidth st <= 0 \/ targetHeight st <= 0 ->
  let r := handleProcess processImage st in
  effectsOf r = [] /\
  stateAfter r = withError (Some "Please provide valid output dimensions") st.
Proof.
  intros Hf Hn G. apply target_guard_true in G.
  unfold handleProcess, effectsOf, stateAfter, bind, snapshot. cbn [fst snd].
  rewrite Hf, Hn, G. split; reflexivity.
Qed.

(** C4.  For a quality [q] in [0,100] on the interface scale, every call of
    [processImage] made by [handleProcess] carries a quality in [0,1]; for
    a format other than PNG it is [min(max(q/100, 0.01), 1)], which is
    [q/100] itself from [q = 1] upwards. *)
Theorem handleProcess_quality_scale (st : State) (o : ProcessOptions) :
  0 <= quality st <= 100 ->
  In (CallProcessImage o) (effectsOf (handleProcess processImage st)) ->
  (0 <= opt_quality o <= 1) /\
  (format st <> png ->
   opt_quality o = Math_min (Math_max (quality st / 100) (1 # 100)) 1) /\
  (format st <> png -> 1 <= quality st -> opt_quality o == quality st / 100).
Proof.
  intros [Hlo Hhi] Hin.
  apply handleProcess_calls in Hin. destruct Hin as (f & _ & _ & _ & _ & ->).
  unfold processOptions, Math_min, Math_max. cbn [opt_quality].
  assert (Hq : quality st / 100 <= 1).
  { apply Qle_shift_div_r; lra. }
  assert (Hb : (1 # 100) <= Qmin (Qmax (quality st / 100) (1 # 100)) 1 <= 1).
  { split.
    - apply Q.min_glb; [apply Q.le_max_r | lra].
    - apply Q.le_min_r. }
  split; [| split].
  - destruct (format st); lra.
  - intros Hf. destruct (format st); congruence.
  - intros Hf H1.
    assert (Hd : (1 # 100) <= quality st / 100).
    { apply Qle_shift_div_l; lra. }
    destruct (format st); try congruence;
      (rewrite Q.max_l by exact Hd; rewrite Q.min_l by exact Hq; reflexivity).
Qed.

(** C6.  With format PNG the quality slider has no influence: two runs of
    [handleProcess] from states that differ only in [quality] make the same
    calls, pass quality 1 to [processImage], and end in states that again
    differ only in [quality]. *)
Theorem handleProcess_png_ignores_quality (st : State) (q1 q2 : Q) :
  format st = png ->
  let r1 := handleProcess processImage (withQuality q1 st) in
  let r2 := handleProcess processImage (withQuality q2 st) in
  effectsOf r1 = effectsOf r2 /\
  (forall o, In (CallProcessImage o) (effectsOf r1) -> opt_quality o = 1) /\
  stateAfter r2 = withQuality q2 (stateAfter r1).
Proof.
  intros Hpng. cbv zeta.
  split; [| split].
  - unfold handleProcess, effectsOf, bind, snapshot. cbn [fst snd].
    cbn [file naturalDimensions targetWidth targetHeight withQuality].
    destruct (file st) as [f |]; [| reflexivity].
    destruct (naturalDimensions st) as [nd |]; [| reflexivity].
    destruct (lessOrEqual (targetWidth st) 0 || lessOrEqual (targetHeight st) 0);
      [reflexivity |].
    unfold processOptions.
    cbn [format quality targetWidth targetHeight croppedAreaPixels withQuality].
    rewrite Hpng.
    destruct (processImage _) as [res | e]; reflexivity.
  - intros o Hin. apply handleProcess_calls in Hin.
    destruct Hin as (f & _ & _ & _ & _ & ->).
    unfold processOptions. cbn [opt_quality format withQuality]. rewrite Hpng.
    reflexivity.
  - unfold handleProcess, stateAfter, bind, snapshot. cbn [fst snd].
    cbn [file naturalDimensions targetWidth targetHeight withQuality].
    destruct (file st) as [f |]; [| reflexivity].
    destruct (naturalDimensions st) as [nd |]; [| reflexivity].
    destruct (lessOrEqual (targetWidth st) 0 || lessOrEqual (targetHeight st) 0);
      [reflexivity |].
    unfold processOptions.
    cbn [format quality targetWidth targetHeight croppedAreaPixels withQuality].
    rewrite Hpng.
    destruct (processImage _) as [res | e]; reflexivity.
Qed.

(** A file whose type neither starts with "image/" nor is
    "application/pdf" only sets the error "Please select a valid image or
    PDF file": nothing else changes, nothing is loaded, and a later
    [handleProcess] can only work on the file that was there before. *)
Lemma handleFileChange_rejects_other_types
    (createObjectURL : File -> string) (st : State) (f : File) :
  startsWith (file_type f) "image/" = false ->
  file_type f <> "application/pdf" ->
  let r := handleFileChange createObjectURL (Some f) st in
  effectsOf r = [] /\
  stateAfter r = withError (Some "Please select a valid image or PDF file") st /\
  forall o,
    In (CallProcessImage o) (effectsOf (handleProcess processImage (stateAfter r))) ->
    file st = Some (opt_file o).
Proof.
  intros Himg Hpdf. cbv zeta.
  apply String.eqb_neq in Hpdf.
  assert (E : handleFileChange createObjectURL (Some f) st =
              setError (Some "Please select a valid image or PDF file") st).
  { unfold handleFileChange. rewrite Himg, Hpdf. reflexivity. }
  rewrite E. split; [reflexivity | split; [reflexivity |]].
  intros o Hin. apply handleProcess_calls in Hin.
  destruct Hin as (f' & Hf' & _ & _ & _ & ->). exact Hf'.
Qed.

(** C9 (as amended).  With "Lock aspect ratio" off, [handleWidthChange]
    changes [targetWidth] only and [handleHeightChange] changes
    [targetHeight] only, in the whole state of the component.  With it on,
    [handleWidthChange v] sets the width to [v] and the height to
    [Math.round (v * r)], where [r = naturalHeight / naturalWidth] is the
    ratio of the original image, computed first and rounded to binary64;
    [handleHeightChange] does the same with width and height exchanged.
    Neither the crop nor the current target enters the result. *)
Theorem handleWidthChange_aspect_binary64
    (st : State) (nd : Dimensions) (v : Q)
    (cells : Binary64.Cells) (bd : Binary64.Dimensions) (x : Binary64.number) :
  naturalDimensions st = Some nd ->
  Binary64.naturalDimensions cells = Some bd ->
  (maintainAspect st = false ->
   stateAfter (handleWidthChange v st) = withTargetWidth v st /\
   stateAfter (handleHeightChange v st) = withTargetHeight v st)
  /\
  (Binary64.maintainAspect cells = false ->
   Binary64.handleWidthChange x cells =
     Binary64.mkCells (Some bd) x (Binary64.targetHeight cells) false /\
   Binary64.handleHeightChange x cells =
     Binary64.mkCells (Some bd) (Binary64.targetWidth cells) x false)
  /\
  (Binary64.maintainAspect cells = true ->
   Binary64.handleWidthChange x cells =
     Binary64.mkCells (Some bd) x
       (Binary64.Math_round
          (PrimFloat.mul x (PrimFloat.div (Binary64.dim_height bd) (Binary64.dim_width bd))))
       true /\
   Binary64.handleHeightChange x cells =
     Binary64.mkCells (Some bd)
       (Binary64.Math_round
          (PrimFloat.mul x (PrimFloat.div (Binary64.dim_width bd) (Binary64.dim_height bd))))
       x true).
Proof.
  intros Hnd Hbd. split; [| split].
  - intros Hm.
    unfold handleWidthChange, handleHeightChange, stateAfter, bind, snapshot.
    cbn [fst snd]. rewrite Hnd, Hm. split; reflexivity.
  - intros Hm. unfold Binary64.handleWidthChange, Binary64.handleHeightChange,
      Binary64.setTargetWidth, Binary64.setTargetHeight.
    rewrite Hbd, Hm. split; reflexivity.
  - intros Hm. unfold Binary64.handleWidthChange, Binary64.handleHeightChange,
      Binary64.setTargetWidth, Binary64.setTargetHeight.
    rewrite Hbd, Hm.
    cbn [Binary64.naturalDimensions Binary64.targetWidth Binary64.targetHeight
         Binary64.maintainAspect].
    rewrite ?Hbd, ?Hm. split; reflexivity.
Qed.

(** C10.  Once [handleProcess] is past its guards, [isProcessing] is false
    when it completes, however [processImage] settles; and if
    [processImage] throws, the stored [processed] result is untouched: the
    final state is the one before the call with the error message set and
    [isProcessing] false.  The same holds of the continuation alone, from
    whatever state the component is in when the promise settles; and a
    call that stops at a guard leaves an idle component idle. *)
Theorem handleProcess_failure_keeps_processed (st : State) (f : File) (nd : Dimensions) :
  file st = Some f -> naturalDimensions st = Some nd ->
  0 < targetWidth st -> 0 < targetHeight st ->
  let r := handleProcess processImage st in
  isProcessing (stateAfter r) = false /\
  (forall e, processImage (processOptions st f) = Rejected e ->
     processed (stateAfter r) = processed st /\
     stateAfter r =
       withIsProcessing false
         (withError (Some match e with
                          | ErrorObject message => message
                          | OtherValue => "Something went wrong while processing the image"
                          end) st)) /\
  (forall outcome later,
     isProcessing (stateAfter (handleProcess_settled outcome later)) = false) /\
  (forall e later,
     processed (stateAfter (handleProcess_settled (Rejected e) later)) = processed later) /\
  (forall idle,
     isProcessing idle = false ->
     isProcessing (stateAfter (handleProcess processImage idle)) = false).
Proof.
  intros Hf Hn Hw Hh. cbv zeta.
  rewrite (handleProcess_runs st f nd Hf Hn Hw Hh).
  split; [| split; [| split; [| split]]].
  - destruct (processImage (processOptions st f)) eqn:E;
      unfold bind, stateAfter; cbn [fst snd]; reflexivity.
  - intros e E. rewrite E. split; reflexivity.
  - intros [res | e] later; reflexivity.
  - intros e later. reflexivity.
  - intros idle Hidle.
    unfold handleProcess, stateAfter, bind, snapshot. cbn [fst snd].
    destruct (file idle) as [f' |]; [| exact Hidle].
    destruct (naturalDimensions idle) as [nd' |]; [| exact Hidle].
    destruct (lessOrEqual (targetWidth idle) 0 || lessOrEqual (targetHeight idle) 0);
      [exact Hidle |].
    destruct (processImage (processOptions idle f')); reflexivity.
Qed.

End ComponentProperties.

(** * Properties of the pipeline model *)

Import Pipeline.

Lemma nearestInteger_of_integer (x : Q) (z : Z) :
  x == inject_Z z -> nearestInteger x = z.
Proof.
  intros Hx. unfold nearestInteger.
  rewrite (Qfloor_comp _ (inject_Z z + (1 # 2))) by (rewrite Hx; reflexivity).
  pose proof (Qfloor_le (inject_Z z + (1 # 2))) as Hle.
  pose proof (Qlt_floor (inject_Z z + (1 # 2))) as Hlt.
  set (k := Qfloor (inject_Z z + (1 # 2))) in *.
  unfold Qle, Qlt in *. cbn in *. lia.
Qed.

Lemma flat_map_rows_length {A B : Type} (row : A -> list B) (n : nat) (l : list A) :
  (forall a, length (row a) = n) ->
  length (flat_map row l) = (length l * n)%nat.
Proof.
  intros Hrow. induction l as [| a l IH]; cbn [flat_map length].
  - reflexivity.
  - rewrite length_app, Hrow, IH. cbn. reflexivity.
Qed.

(** A clamped rectangle lies inside the rectangle it was clamped from and
    inside the source. *)
Lemma clampCrop_inside (sw sh : Z) (c : CropRect) :
  let c' := clampCrop sw sh c in
  (crop_x c <= crop_x c' /\ crop_y c <= crop_y c' /\
   crop_x c' + crop_width c' <= crop_x c + crop_width c /\
   crop_y c' + crop_height c' <= crop_y c + crop_height c) /\
  (0 <= crop_x c' /\ 0 <= crop_y c' /\
   crop_x c' + crop_width c' <= inject_Z sw /\
   crop_y c' + crop_height c' <= inject_Z sh).
Proof.
  cbv zeta. unfold clampCrop. cbn [crop_x crop_y crop_width crop_height].
  pose proof (Q.le_max_l (crop_x c) 0). pose proof (Q.le_max_r (crop_x c) 0).
  pose proof (Q.le_max_l (crop_y c) 0). pose proof (Q.le_max_r (crop_y c) 0).
  pose proof (Q.le_min_l (crop_x c + crop_width c) (inject_Z sw)).
  pose proof (Q.le_min_r (crop_x c + crop_width c) (inject_Z sw)).
  pose proof (Q.le_min_l (crop_y c + crop_height c) (inject_Z sh)).
  pose proof (Q.le_min_r (crop_y c + crop_height c) (inject_Z sh)).
  repeat split; lra.
Qed.

Lemma emptiness_guard (c : CropRect) :
  Qle_bool (crop_width c) 0 || Qle_bool (crop_height c) 0 = true <->
  crop_width c <= 0 \/ crop_height c <= 0.
Proof.
  rewrite orb_true_iff, !Qle_bool_iff. reflexivity.
Qed.

Lemma emptiness_guard_false (c : CropRect) :
  0 < crop_width c -> 0 < crop_height c ->
  Qle_bool (crop_width c) 0 || Qle_bool (crop_height c) 0 = false.
Proof.
  intros Hw Hh.
  destruct (Qle_bool (crop_width c) 0 || Qle_bool (crop_height c) 0) eqn:E;
    [| reflexivity].
  apply emptiness_guard in E. lra.
Qed.

Lemma target_check_false (w h : Z) :
  (1 <= w)%Z -> (1 <= h)%Z -> (w <=? 0)%Z || (h <=? 0)%Z = false.
Proof.
  intros Hw Hh. apply orb_false_iff. split; apply Z.leb_gt; lia.
Qed.

(** The extent the resampler derives from a plan is the requested target. *)
Lemma destination_is_target (c : CropRect) (w h : Z) :
  0 < crop_width c -> 0 < crop_height c ->
  let plan := mkPlan c (inject_Z w / crop_width c) (inject_Z h / crop_height c) in
  destinationWidth plan = w /\ destinationHeight plan = h.
Proof.
  intros Hw Hh. cbv zeta. unfold destinationWidth, destinationHeight.
  cbn [plan_crop plan_sx plan_sy].
  split; apply nearestInteger_of_integer; apply Qmult_div_r; lra.
Qed.

Section PipelineProperties.

Variable hostDecode : list Byte.byte -> option SourceImage.
Variable sampleFilter : SourceImage -> Q -> Q -> Q -> Q -> Pixel.

Lemma decode_positive (bytes : list Byte.byte) (mime : string) (s : SourceImage) :
  decode hostDecode bytes mime = Ok s -> (0 < src_width s)%Z /\ (0 < src_height s)%Z.
Proof using hostDecode.
  unfold decode.
  destruct (negb (startsWith mime "image/")); [discriminate |].
  destruct (hostDecode bytes) as [s' |]; [| discriminate].
  destruct ((src_width s' <=? 0)%Z || (src_height s' <=? 0)%Z) eqn:E; [discriminate |].
  intros [= <-]. apply orb_false_iff in E. destruct E as [E1 E2].
  apply Z.leb_gt in E1, E2. split; assumption.
Qed.

Lemma resample_dimensions (s : SourceImage) (p : ResolvedPlan) :
  let b := resample sampleFilter s p in
  buf_width b = destinationWidth p /\
  buf_height b = destinationHeight p /\
  length (buf_pixels b) =
    (Z.to_nat (destinationHeight p) * Z.to_nat (destinationWidth p))%nat.
Proof using sampleFilter.
  cbv zeta. unfold resample. cbn [buf_width buf_height buf_pixels].
  split; [reflexivity | split; [reflexivity |]].
  rewrite (flat_map_rows_length _ (Z.to_nat (destinationWidth p))).
  - rewrite length_seq. reflexivity.
  - intros j. unfold resampleRow. rewrite length_map, length_seq. reflexivity.
Qed.

(** C1.  For a source that decodes and a target of [w >= 1] by [h >= 1],
    stages one to three succeed and deliver a buffer that is exactly [w]
    wide and [h] high, with [w * h] pixels, whatever the shape of the
    source or of the crop (a crop, when given, must leave a non-empty
    region of the source). *)
Theorem decodeAndResample_dimensions
    (bytes : list Byte.byte) (mime : string) (s : SourceImage)
    (crop : option CropRect) (w h : Z) :
  decode hostDecode bytes mime = Ok s ->
  (1 <= w)%Z -> (1 <= h)%Z ->
  (forall c, crop = Some c ->
     0 < crop_width (clampCrop (src_width s) (src_height s) c) /\
     0 < crop_height (clampCrop (src_width s) (src_height s) c)) ->
  exists b,
    decodeAndResample hostDecode sampleFilter bytes mime crop (mkTarget w h) = Ok b /\
    buf_width b = w /\ buf_height b = h /\
    length (buf_pixels b) = Z.to_nat (w * h).
Proof.
  intros Hdec Hw Hh Hcrop.
  destruct (decode_positive _ _ _ Hdec) as [Hsw Hsh].
  set (c := effectiveCrop (src_width s) (src_height s) crop).
  assert (Hc : 0 < crop_width c /\ 0 < crop_height c).
  { subst c. destruct crop as [c0 |]; cbn [effectiveCrop].
    - apply Hcrop. reflexivity.
    - cbn [fullSource crop_width crop_height]. split.
      + change 0 with (inject_Z 0). rewrite <- Zlt_Qlt. exact Hsw.
      + change 0 with (inject_Z 0). rewrite <- Zlt_Qlt. exact Hsh. }
  destruct Hc as [Hcw Hch].
  unfold decodeAndResample. rewrite Hdec. unfold resolve. fold c.
  rewrite (emptiness_guard_false c Hcw Hch).
  cbn [target_width target_height]. rewrite (target_check_false w h Hw Hh).
  eexists. split; [reflexivity |].
  destruct (destination_is_target c w h Hcw Hch) as [Dw Dh].
  destruct (resample_dimensions s
              (mkPlan c (inject_Z w / crop_width c) (inject_Z h / crop_height c)))
    as (Bw & Bh & Bl).
  rewrite Bw, Bh, Bl, Dw, Dh.
  split; [reflexivity | split; [reflexivity |]].
  rewrite Z2Nat.inj_mul by lia. apply Nat.mul_comm.
Qed.

End PipelineProperties.

(** C2 (as amended).  The resolver intersects a crop with the source bounds
    and never widens it: the clamped rectangle lies inside both, and a crop
    already inside the source is kept as it is.  The only error a crop can
    cause is [EmptyCrop], raised exactly when the clamped width or height
    is not positive; otherwise the plan carries the clamped rectangle.  For
    a source at least 10 pixels high, [{x: -5, y: 0, width: sw + 100,
    height: 10}] resolves to [{x: 0, y: 0, width: sw, height: 10}]. *)
Theorem resolve_clamps_crop (sw sh : Z) (c : CropRect) (t : TargetDimensions) :
  (0 < sw)%Z -> (0 < sh)%Z ->
  (1 <= target_width t)%Z -> (1 <= target_height t)%Z ->
  let c' := clampCrop sw sh c in
  ((crop_x c <= crop_x c' /\ crop_y c <= crop_y c' /\
    crop_x c' + crop_width c' <= crop_x c + crop_width c /\
    crop_y c' + crop_height c' <= crop_y c + crop_height c) /\
   (0 <= crop_x c' /\ 0 <= crop_y c' /\
    crop_x c' + crop_width c' <= inject_Z sw /\
    crop_y c' + crop_height c' <= inject_Z sh)) /\
  (0 <= crop_x c -> 0 <= crop_y c ->
   crop_x c + crop_width c <= inject_Z sw ->
   crop_y c + crop_height c <= inject_Z sh -> sameRect c' c) /\
  (resolve sw sh (Some c) t = Err EmptyCrop <->
   crop_width c' <= 0 \/ crop_height c' <= 0) /\
  (0 < crop_width c' -> 0 < crop_height c' ->
   exists plan, resolve sw sh (Some c) t = Ok plan /\ plan_crop plan = c') /\
  ((10 <= sh)%Z ->
   exists plan,
     resolve sw sh (Some (mkCropRect (-5) 0 (inject_Z sw + 100) 10)) t = Ok plan /\
     sameRect (plan_crop plan) (mkCropRect 0 0 (inject_Z sw) 10)).
Proof.
  intros Hsw Hsh Htw Hth. cbv zeta.
  assert (Qsw : 0 < inject_Z sw) by (change 0 with (inject_Z 0); rewrite <- Zlt_Qlt; exact Hsw).
  split; [apply clampCrop_inside | split; [| split; [| split]]].
  - intros Hx Hy Hr Hb. unfold sameRect, clampCrop.
    cbn [crop_x crop_y crop_width crop_height].
    rewrite (Q.max_l _ _ Hx), (Q.max_l _ _ Hy), (Q.min_l _ _ Hr), (Q.min_l _ _ Hb).
    repeat split; ring.
  - unfold resolve. cbn [effectiveCrop].
    destruct (Qle_bool (crop_width (clampCrop sw sh c)) 0
              || Qle_bool (crop_height (clampCrop sw sh c)) 0) eqn:E.
    + apply emptiness_guard in E. tauto.
    + rewrite (target_check_false _ _ Htw Hth). split; [discriminate |].
      intros H. apply emptiness_guard in H. congruence.
  - intros Hw Hh. unfold resolve. cbn [effectiveCrop].
    rewrite (emptiness_guard_false _ Hw Hh), (target_check_false _ _ Htw Hth).
    eexists. split; reflexivity.
  - intros H10.
    assert (Q10 : 10 <= inject_Z sh) by (change 10 with (inject_Z 10); rewrite <- Zle_Qle; exact H10).
    set (c0 := mkCropRect (-5) 0 (inject_Z sw + 100) 10).
    assert (Hrect : sameRect (clampCrop sw sh c0) (mkCropRect 0 0 (inject_Z sw) 10)).
    { unfold sameRect, clampCrop, c0. cbn [crop_x crop_y crop_width crop_height].
      assert (Er : Qmin (-5 + (inject_Z sw + 100)) (inject_Z sw) == inject_Z sw)
        by (apply Q.min_r; lra).
      assert (Eb : Qmin (0 + 10) (inject_Z sh) == 10) by (rewrite Q.min_l; lra).
      assert (El : Qmax (-5) 0 == 0) by (apply Q.max_r; lra).
      assert (Et : Qmax 0 0 == 0) by (apply Q.max_r; lra).
      rewrite Er, Eb, El, Et. repeat split; ring. }
    destruct Hrect as (Rx & Ry & Rw & Rh).
    unfold resolve. cbn [effectiveCrop]. fold c0.
    rewrite emptiness_guard_false, (target_check_false _ _ Htw Hth).
    + eexists. split; [reflexivity |]. cbn [plan_crop].
      repeat split; assumption.
    + rewrite Rw. cbn [crop_width]. exact Qsw.
    + rewrite Rh. cbn [crop_height]. lra.
Qed.

(** C2, as first stated, fails on a source less than 10 pixels high: on a
    4 x 4 source the example rectangle resolves to height 4, not 10. *)
Lemma resolve_example_short_source :
  exists plan,
    resolve 4 4 (Some (mkCropRect (-5) 0 (inject_Z 4 + 100) 10)) (mkTarget 8 8) = Ok plan /\
    crop_height (plan_crop plan) == 4 /\
    ~ sameRect (plan_crop plan) (mkCropRect 0 0 (inject_Z 4) 10).
Proof.
  eexists. split; [reflexivity |]. split.
  - reflexivity.
  - unfold sameRect. cbn. intros (_ & _ & _ & H). discriminate H.
Qed.

Lemma clampQuality_fixed (q : Q) : clampQuality (clampQuality q) = clampQuality q.
Proof.
  unfold clampQuality, Qmax, Qmin, GenericMinMax.gmax, GenericMinMax.gmin.
  destruct (q ?= 1) eqn:E1; cbv iota.
  - destruct (0 ?= q) eqn:E0; cbv iota; rewrite ?E1; cbv iota; rewrite ?E0; reflexivity.
  - destruct (0 ?= q) eqn:E0; cbv iota; rewrite ?E1; cbv iota; rewrite ?E0; reflexivity.
  - reflexivity.
Qed.

Section EncoderProperties.

Variable hostEncode : PixelBuffer -> string -> option Q -> option (list Byte.byte).
Variable pdfDocument : string -> Z -> Z -> list Byte.byte -> list Byte.byte.

(** C5.  A quality outside [0,1] is clamped to the nearest bound, not
    rejected: [encode] answers for [q] what it answers for the clamped
    value, which is 1 above 1 and 0 below 0; JPEG at 1.5 gives the bytes of
    JPEG at 1.0.  The component, for its part, never hands over a value
    outside [0.01, 1]: for a format other than PNG a slider value of 100
    or more reaches [processImage] as quality 1, and one of 1 or less as
    quality 0.01. *)
Theorem encode_clamps_quality (b : PixelBuffer) (f : OutputFormat) (q : Q) :
  encode hostEncode pdfDocument b f q =
    encode hostEncode pdfDocument b f (clampQuality q) /\
  (1 < q -> encode hostEncode pdfDocument b f q = encode hostEncode pdfDocument b f 1) /\
  (q < 0 -> encode hostEncode pdfDocument b f q = encode hostEncode pdfDocument b f 0) /\
  encode hostEncode pdfDocument b jpeg (3 # 2) = encode hostEncode pdfDocument b jpeg 1 /\
  (forall st file slider,
     format st <> png -> 100 <= slider ->
     opt_quality (processOptions (withQuality slider st) file) == 1) /\
  (forall st file slider,
     format st <> png -> slider <= 1 ->
     opt_quality (processOptions (withQuality slider st) file) == 1 # 100).
Proof.
  assert (Hkey : forall q1 q2, clampQuality q1 = clampQuality q2 ->
            encode hostEncode pdfDocument b f q1 = encode hostEncode pdfDocument b f q2).
  { intros q1 q2 H. unfold encode. rewrite H. reflexivity. }
  split; [| split; [| split; [| split; [| split]]]].
  - apply Hkey. symmetry. apply clampQuality_fixed.
  - intros Hq. apply Hkey. unfold clampQuality, Qmin, GenericMinMax.gmin.
    rewrite (proj1 (Qgt_alt q 1) Hq). reflexivity.
  - intros Hq. apply Hkey.
    unfold clampQuality, Qmax, Qmin, GenericMinMax.gmax, GenericMinMax.gmin.
    assert (H1 : (q ?= 1) = Lt) by (apply (proj1 (Qlt_alt q 1)); lra).
    assert (H0 : (0 ?= q) = Gt) by (apply (proj1 (Qgt_alt 0 q)); exact Hq).
    rewrite H1, H0. reflexivity.
  - reflexivity.
  - intros st file slider Hf Hs. unfold processOptions, Math_min, Math_max.
    cbn [opt_quality format quality withQuality].
    assert (Hclamp : Qmin (Qmax (slider / 100) (1 # 100)) 1 == 1).
    { apply Q.min_r. apply Qle_trans with (slider / 100); [| apply Q.le_max_l].
      apply Qle_shift_div_l; lra. }
    destruct (format st); try congruence; exact Hclamp.
  - intros st file slider Hf Hs. unfold processOptions, Math_min, Math_max.
    cbn [opt_quality format quality withQuality].
    assert (Hclamp : Qmin (Qmax (slider / 100) (1 # 100)) 1 == 1 # 100).
    { rewrite Q.max_r by (apply Qle_shift_div_r; lra). apply Q.min_l. lra. }
    destruct (format st); try congruence; exact Hclamp.
Qed.

End EncoderProperties.

(** * The statements on concrete inputs *)

(** A successful run: one call, at quality 0.8, and the result on display. *)
Example handleProcess_loaded_call :
  effectsOf (handleProcess succeeding loaded) =
    [CallProcessImage
       (mkProcessOptions holiday 4000 3000 jpeg
          (Qmin (Qmax (80 / 100) (1 # 100)) 1) None "holiday.jpg")].
Proof. reflexivity. Qed.

Example handleProcess_loaded_result :
  option_map width (processed (stateAfter (handleProcess succeeding loaded))) = Some 4000 /\
  isProcessing (stateAfter (handleProcess succeeding loaded)) = false.
Proof. split; reflexivity. Qed.

(** Picking a photograph revokes the previous URL, makes a new one and
    starts loading it. *)
Example handleFileChange_image_effects :
  effectsOf (handleFileChange blobUrl (Some holiday) loaded) =
    [RevokeObjectURL "blob:holiday.jpg"; CreateObjectURL holiday;
     LoadImage "blob:holiday.jpg"].
Proof. reflexivity. Qed.

(** A 2 x 1 crop of the small surface stretched to 2 x 5. *)
Example resample_stretch :
  option_map (fun b => (buf_width b, buf_height b, length (buf_pixels b)))
    (match decodeAndResample decodesToSmall constantFilter [] "image/png"
             (Some (mkCropRect 1 1 2 1)) (mkTarget 2 5) with
     | Ok b => Some b
     | Err _ => None
     end) = Some (2%Z, 5%Z, 10%nat).
Proof. reflexivity. Qed.

Lemma decodeAndResample_dimensions_witness :
  exists b,
    decodeAndResample decodesToSmall constantFilter [] "image/png"
      (Some (mkCropRect 1 1 2 1)) (mkTarget 2 5) = Ok b /\
    buf_width b = 2%Z /\ buf_height b = 5%Z /\
    length (buf_pixels b) = Z.to_nat (2 * 5).
Proof.
  apply (decodeAndResample_dimensions decodesToSmall constantFilter
           [] "image/png" smallSurface (Some (mkCropRect 1 1 2 1)) 2 5).
  - reflexivity.
  - lia.
  - lia.
  - intros c E. injection E as <-. vm_compute. split; reflexivity.
Defined.

Lemma resolve_clamps_crop_witness :
  exists plan,
    resolve 100 50 (Some (mkCropRect (-5) 0 (inject_Z 100 + 100) 10)) (mkTarget 8 8) = Ok plan /\
    sameRect (plan_crop plan) (mkCropRect 0 0 (inject_Z 100) 10).
Proof.
  apply (resolve_clamps_crop 100 50 (mkCropRect (-5) 0 200 10) (mkTarget 8 8));
    cbn; lia.
Defined.

Lemma handleProcess_invalid_target_witness :
  (targetWidth (withTargetWidth 0 loaded) <= 0 \/
   targetHeight (withTargetWidth 0 loaded) <= 0) /\
  effectsOf (handleProcess succeeding (withTargetWidth 0 loaded)) = [] /\
  stateAfter (handleProcess succeeding (withTargetWidth 0 loaded)) =
    withError (Some "Please provide valid output dimensions") (withTargetWidth 0 loaded).
Proof.
  assert (H : targetWidth (withTargetWidth 0 loaded) <= 0 \/
              targetHeight (withTargetWidth 0 loaded) <= 0).
  { left. vm_compute. discriminate. }
  split; [exact H |].
  exact (handleProcess_invalid_target succeeding (withTargetWidth 0 loaded)
           holiday (mkDimensions 4000 3000) eq_refl eq_refl H).
Defined.

(** On first render there is no file, and the first guard answers. *)
Example handleProcess_on_first_render :
  error (stateAfter (handleProcess succeeding initialState)) =
    Some "Upload an image to get started" /\
  effectsOf (handleProcess succeeding initialState) = [].
Proof. split; reflexivity. Qed.

Lemma handleProcess_quality_scale_witness :
  0 <= opt_quality (processOptions loaded holiday) <= 1 /\
  opt_quality (processOptions loaded holiday) == 80 / 100.
Proof.
  destruct (handleProcess_quality_scale succeeding loaded (processOptions loaded holiday))
    as (Hrange & _ & Hscale).
  - split; vm_compute; discriminate.
  - left. reflexivity.
  - split; [exact Hrange |]. apply Hscale.
    + discriminate.
    + vm_compute. discriminate.
Defined.

Lemma encode_clamps_quality_witness :
  1 < 3 # 2 /\
  encode emptyStream bareDocument smallBuffer webp (3 # 2) =
    encode emptyStream bareDocument smallBuffer webp 1.
Proof.
  split; [reflexivity |].
  apply (proj1 (proj2 (encode_clamps_quality emptyStream bareDocument smallBuffer webp (3 # 2)))).
  reflexivity.
Defined.

Lemma handleProcess_png_ignores_quality_witness :
  effectsOf (handleProcess succeeding (withQuality 10 (withFormat png loaded))) =
  effectsOf (handleProcess succeeding (withQuality 90 (withFormat png loaded))).
Proof.
  apply (handleProcess_png_ignores_quality succeeding (withFormat png loaded) 10 90).
  reflexivity.
Defined.

Example handleFileChange_rejects_notes :
  stateAfter (handleFileChange blobUrl (Some notes) loaded) =
    withError (Some "Please select a valid image or PDF file") loaded.
Proof.
  apply (handleFileChange_rejects_other_types succeeding blobUrl loaded notes).
  - reflexivity.
  - discriminate.
Qed.

Lemma handleWidthChange_aspect_binary64_witness :
  Binary64.handleWidthChange (Binary64.integerToNumber 27) Binary64.portrait =
    Binary64.mkCells
      (Some (Binary64.mkDimensions (Binary64.integerToNumber 600)
                                   (Binary64.integerToNumber 1300)))
      (Binary64.integerToNumber 27)
      (Binary64.Math_round
         (PrimFloat.mul (Binary64.integerToNumber 27)
            (PrimFloat.div (Binary64.integerToNumber 1300) (Binary64.integerToNumber 600))))
      true.
Proof.
  destruct (handleWidthChange_aspect_binary64 loaded (mkDimensions 4000 3000) 800
              Binary64.portrait
              (Binary64.mkDimensions (Binary64.integerToNumber 600)
                                     (Binary64.integerToNumber 1300))
              (Binary64.integerToNumber 27)
              eq_refl eq_refl) as (_ & _ & Hon).
  exact (proj1 (Hon eq_refl)).
Defined.

(** C9, as first stated, fails by one pixel where the rounded ratio pulls
    the product below a half: on a 600 x 1300 image a width of 27 gives
    height 58, while [round (27 * 1300 / 600)] is 59, in binary64 and in
    exact arithmetic alike. *)
Lemma handleWidthChange_aspect_off_by_one :
  Binary64.targetHeight
    (Binary64.handleWidthChange (Binary64.integerToNumber 27) Binary64.portrait) =
    Binary64.integerToNumber 58 /\
  Binary64.Math_round
    (PrimFloat.div
       (PrimFloat.mul (Binary64.integerToNumber 27) (Binary64.integerToNumber 1300))
       (Binary64.integerToNumber 600)) =
    Binary64.integerToNumber 59 /\
  Math_round (27 * 1300 / 600) == 59.
Proof.
  split; [vm_compute; reflexivity | split; [vm_compute; reflexivity | reflexivity]].
Qed.

Lemma handleProcess_failure_keeps_processed_witness :
  isProcessing (stateAfter (handleProcess failing loadedWithResult)) = false /\
  processed (stateAfter (handleProcess failing loadedWithResult)) = Some earlier /\
  error (stateAfter (handleProcess failing loadedWithResult)) = Some "canvas is empty".
Proof.
  destruct (handleProcess_failure_keeps_processed failing loadedWithResult holiday
              (mkDimensions 4000 3000) eq_refl eq_refl eq_refl eq_refl)
    as (Hdone & Hfail & _).
  destruct (Hfail (ErrorObject "canvas is empty") eq_refl) as [Hkept Hstate].
  split; [exact Hdone | split; [exact Hkept |]].
  rewrite Hstate. reflexivity.
Defined.

(** * Further properties of the callbacks *)

Section CallbackProperties.

Variable processImage : ProcessOptions -> Settled.

(** [handleProcess] is its synchronous part followed by the continuation. *)
Lemma handleProcess_split (st : State) :
  handleProcess processImage st =
  bind handleProcess_started
       (fun call => match call with
                    | Some options => handleProcess_settled (processImage options)
                    | None => ret tt
                    end) st.
Proof.
  unfold handleProcess, handleProcess_started, bind, snapshot. cbn [fst snd].
  destruct (file st) as [f |]; [| reflexivity].
  destruct (naturalDimensions st) as [nd |]; [| reflexivity].
  destruct (lessOrEqual (targetWidth st) 0 || lessOrEqual (targetHeight st) 0);
    [reflexivity |].
  cbv [ret emit setError setIsProcessing update fst snd app].
  destruct (processImage (processOptions st f)); reflexivity.
Qed.

(** The three ways a call of [handleProcess] can go. *)
Lemma handleProcess_cases (st : State) :
  let r := handleProcess processImage st in
  (exists message, r = (tt, withError (Some message) st, [])) \/
  (exists f res,
     file st = Some f /\ naturalDimensions st <> None /\
     0 < targetWidth st /\ 0 < targetHeight st /\
     processImage (processOptions st f) = Fulfilled res /\
     r = (tt, withIsProcessing false (withProcessed (Some (stored res)) (withError None st)),
          [CallProcessImage (processOptions st f)])) \/
  (exists f e message,
     file st = Some f /\ naturalDimensions st <> None /\
     0 < targetWidth st /\ 0 < targetHeight st /\
     processImage (processOptions st f) = Rejected e /\
     r = (tt, withIsProcessing false (withError (Some message) st),
          [CallProcessImage (processOptions st f); ConsoleError e])).
Proof.
  cbv zeta.
  destruct (file st) as [f |] eqn:Hf.
  2:{ left. eexists. unfold handleProcess, bind, snapshot. cbn [fst snd].
      rewrite Hf. reflexivity. }
  destruct (naturalDimensions st) as [nd |] eqn:Hn.
  2:{ left. eexists. unfold handleProcess, bind, snapshot. cbn [fst snd].
      rewrite Hf, Hn. reflexivity. }
  destruct (lessOrEqual (targetWidth st) 0 || lessOrEqual (targetHeight st) 0) eqn:G.
  { left. eexists. unfold handleProcess, bind, snapshot. cbn [fst snd].
    rewrite Hf, Hn, G. reflexivity. }
  apply orb_false_iff in G. destruct G as [Gw Gh]. unfold lessOrEqual in Gw, Gh.
  assert (Hw : 0 < targetWidth st).
  { apply Qnot_le_lt. intros C. apply Qle_bool_iff in C. congruence. }
  assert (Hh : 0 < targetHeight st).
  { apply Qnot_le_lt. intros C. apply Qle_bool_iff in C. congruence. }
  rewrite (handleProcess_runs processImage st f nd Hf Hn Hw Hh).
  destruct (processImage (processOptions st f)) as [res | e] eqn:E.
  - right. left. exists f, res.
    repeat split; try assumption; try discriminate.
  - right. right. exists f, e. eexists.
    repeat split; try assumption; try discriminate.
Qed.

(** X1.  After [handleProcess] the error is empty exactly when the guards
    were passed and the promise was fulfilled; the result on display is
    then the one [processImage] returned, and [processImage] was called
    once.  In every other case an error message is set. *)
Theorem handleProcess_error_iff_failure (st : State) :
  let r := handleProcess processImage st in
  (error (stateAfter r) = None <->
   exists f res,
     file st = Some f /\ naturalDimensions st <> None /\
     0 < targetWidth st /\ 0 < targetHeight st /\
     processImage (processOptions st f) = Fulfilled res /\
     processed (stateAfter r) = Some (stored res) /\
     effectsOf r = [CallProcessImage (processOptions st f)]).
Proof.
  cbv zeta.
  destruct (handleProcess_cases st) as [(m & E) | [(f & res & Hf & Hn & Hw & Hh & Hp & E)
                                       | (f & e & m & Hf & Hn & Hw & Hh & Hp & E)]];
    rewrite E; unfold stateAfter, effectsOf; cbn [fst snd].
  - split; [discriminate |].
    intros (f & res & _ & _ & _ & _ & _ & _ & C). discriminate C.
  - split; [| reflexivity].
    intros _. exists f, res. repeat split; assumption.
  - split; [discriminate |].
    intros (f' & res & _ & _ & _ & _ & _ & _ & C). discriminate C.
Qed.

(** X2.  [handleProcess] changes nothing but [isProcessing], [error] and
    [processed]; what it reads is left as it was, so that running it again
    makes the same call. *)
Theorem handleProcess_repeatable (st : State) :
  let r := handleProcess processImage st in
  (exists busy message result,
     stateAfter r = withIsProcessing busy (withError message (withProcessed result st))) /\
  (forall o,
     In (CallProcessImage o) (effectsOf r) <->
     In (CallProcessImage o) (effectsOf (handleProcess processImage (stateAfter r)))).
Proof.
  cbv zeta.
  assert (Hframe : exists busy message result,
             stateAfter (handleProcess processImage st) =
             withIsProcessing busy (withError message (withProcessed result st))).
  { destruct (handleProcess_cases st) as [(m & E) | [(f & res & _ & _ & _ & _ & _ & E)
                                         | (f & e & m & _ & _ & _ & _ & _ & E)]];
      rewrite E; unfold stateAfter; cbn [fst snd].
    - exists (isProcessing st), (Some m), (processed st). reflexivity.
    - exists false, None, (Some (stored res)). reflexivity.
    - exists false, (Some m), (processed st). reflexivity. }
  split; [exact Hframe |].
  destruct Hframe as (busy & message & result & Hst). rewrite Hst.
  set (st' := withIsProcessing busy (withError message (withProcessed result st))).
  assert (Hopts : forall f, processOptions st' f = processOptions st f) by reflexivity.
  intros o.
  destruct (file st) as [f |] eqn:Hf.
  2:{ unfold handleProcess, effectsOf, bind, snapshot. cbn [fst snd].
      change (file st') with (file st). rewrite Hf. reflexivity. }
  destruct (naturalDimensions st) as [nd |] eqn:Hn.
  2:{ unfold handleProcess, effectsOf, bind, snapshot. cbn [fst snd].
      change (file st') with (file st).
      change (naturalDimensions st') with (naturalDimensions st).
      rewrite Hf, Hn. reflexivity. }
  split; intros Hin; apply handleProcess_calls in Hin;
    destruct Hin as (f' & Hf' & _ & Hw & Hh & ->).
  - rewrite Hf in Hf'. injection Hf' as <-.
    rewrite (handleProcess_runs processImage st' f nd Hf Hn Hw Hh).
    rewrite Hopts. left. reflexivity.
  - change (file st = Some f') in Hf'.
    change (0 < targetWidth st) in Hw. change (0 < targetHeight st) in Hh.
    rewrite (handleProcess_runs processImage st f nd Hf Hn Hw Hh).
    rewrite Hf in Hf'. injection Hf' as <-. rewrite Hopts. left. reflexivity.
Qed.

Lemma image_type_is_not_pdf (ty : string) :
  startsWith ty "image/" = true -> (ty =? "application/pdf")%string = false.
Proof.
  intros H. destruct (ty =? "application/pdf")%string eqn:E; [| reflexivity].
  apply String.eqb_eq in E. subst ty. discriminate H.
Qed.

Lemma handleFileChange_image (createObjectURL : File -> string) (st : State) (f : File) :
  startsWith (file_type f) "image/" = true ->
  handleFileChange createObjectURL (Some f) st =
    (tt, afterImagePicked (createObjectURL f) st f,
     (urlTurnover createObjectURL st f ++ [LoadImage (createObjectURL f)])%list).
Proof.
  intros Himg. unfold handleFileChange, urlTurnover, afterImagePicked.
  rewrite Himg, (image_type_is_not_pdf _ Himg). cbn [negb andb].
  unfold bind, snapshot. cbn [fst snd].
  destruct (objectUrlRef st) as [old |]; reflexivity.
Qed.

Lemma handleFileChange_pdf (createObjectURL : File -> string) (st : State) (f : File) :
  file_type f = "application/pdf" ->
  handleFileChange createObjectURL (Some f) st =
    (tt,
     withNaturalDimensions None
       (withError (Some "PDF import is not supported yet. Please select an image format.")
          (afterImagePicked (createObjectURL f) st f)),
     urlTurnover createObjectURL st f).
Proof.
  intros Hpdf.
  assert (Himg : startsWith (file_type f) "image/" = false) by (rewrite Hpdf; reflexivity).
  apply String.eqb_eq in Hpdf.
  unfold handleFileChange, urlTurnover, afterImagePicked.
  rewrite Himg, Hpdf. cbn [negb andb].
  unfold bind, snapshot. cbn [fst snd].
  destruct (objectUrlRef st) as [old |]; reflexivity.
Qed.

(** X3.  Picking an image file revokes the object URL held so far (if any)
    before creating the new one, starts loading the new URL, and stores the
    file.  Crop, zoom, quality and format return to their defaults and the
    previous result and error are dropped; the target size, the lock and
    the natural dimensions stay those of the previous image until the new
    one has loaded. *)
Theorem handleFileChange_accepts_image
    (createObjectURL : File -> string) (st : State) (f : File) :
  startsWith (file_type f) "image/" = true ->
  let r := handleFileChange createObjectURL (Some f) st in
  let url := createObjectURL f in
  effectsOf r =
    (match objectUrlRef st with Some old => [RevokeObjectURL old] | None => [] end
     ++ [CreateObjectURL f; LoadImage url])%list /\
  stateAfter r =
    mkState (Some f) (Some url) (naturalDimensions st) (Some url)
            (mkPoint 0 0) 1 None None
            (targetWidth st) (targetHeight st) (maintainAspect st)
            80 jpeg (isProcessing st) None None.
Proof.
  intros Himg. cbv zeta. rewrite (handleFileChange_image _ _ _ Himg).
  unfold effectsOf, stateAfter, urlTurnover. cbn [fst snd].
  destruct (objectUrlRef st); split; reflexivity.
Qed.

(** X4.  Pick an image, let it load with natural size [w] x [h], press the
    button: [processImage] is called with that file, target [w] x [h],
    format JPEG at quality 0.8, no crop, and the file's own name, whatever
    the component held before. *)
Theorem upload_load_process_defaults
    (createObjectURL : File -> string) (st : State) (f : File) (w h : Q) :
  startsWith (file_type f) "image/" = true ->
  0 < w -> 0 < h ->
  let picked := stateAfter (handleFileChange createObjectURL (Some f) st) in
  let ready := stateAfter (image_onload w h picked) in
  exists q rest,
    effectsOf (handleProcess processImage ready) =
      CallProcessImage (mkProcessOptions f w h jpeg q None (file_name f)) :: rest /\
    q == 4 # 5.
Proof.
  intros Himg Hw Hh. cbv zeta. rewrite (handleFileChange_image _ _ _ Himg).
  unfold stateAfter at 2. cbn [fst snd].
  set (ready := stateAfter (image_onload w h _)).
  rewrite (handleProcess_runs processImage ready f (mkDimensions w h)
             eq_refl eq_refl Hw Hh).
  eexists. eexists. split.
  - unfold effectsOf, bind, emit. cbn [fst snd app]. reflexivity.
  - reflexivity.
Qed.

(** X5.  [image.onload] does not look at the current file.  If the load
    handler of an earlier image runs after a PDF has been picked, the
    natural dimensions are set again and [handleProcess] hands the PDF file
    to [processImage]. *)
Theorem late_onload_after_pdf_reaches_processImage
    (createObjectURL : File -> string) (st : State) (f : File) (w h : Q) :
  file_type f = "application/pdf" ->
  0 < w -> 0 < h ->
  let picked := stateAfter (handleFileChange createObjectURL (Some f) st) in
  let revived := stateAfter (image_onload w h picked) in
  naturalDimensions picked = None /\
  exists o rest,
    effectsOf (handleProcess processImage revived) = CallProcessImage o :: rest /\
    opt_file o = f /\ opt_targetWidth o = w /\ opt_targetHeight o = h.
Proof.
  intros Hpdf Hw Hh. cbv zeta. rewrite (handleFileChange_pdf _ _ _ Hpdf).
  unfold stateAfter at 1 3. cbn [fst snd].
  split; [reflexivity |].
  set (revived := stateAfter (image_onload w h _)).
  rewrite (handleProcess_runs processImage revived f (mkDimensions w h)
             eq_refl eq_refl Hw Hh).
  eexists. eexists. split.
  - unfold effectsOf, bind, emit. cbn [fst snd app]. reflexivity.
  - repeat split; reflexivity.
Qed.

(** X6.  What the download link serves follows the last fulfilled run: after
    a fulfilled [handleProcess] it is the URL and file name [processImage]
    returned; after a rejected or refused one it is what it was before. *)
Theorem handleDownload_after_handleProcess (st : State) :
  let r := handleProcess processImage st in
  (error (stateAfter r) = None ->
   exists f res,
     file st = Some f /\
     processImage (processOptions st f) = Fulfilled res /\
     handleDownload (stateAfter r) =
       [CreateAnchor; SetHref (res_url res); SetDownload (res_filename res);
        AppendToBody; Click; RemoveFromBody]) /\
  (error (stateAfter r) <> None ->
   handleDownload (stateAfter r) = handleDownload st).
Proof.
  cbv zeta. split.
  - destruct (handleProcess_cases st) as [(m & E) | [(f & res & Hf & _ & _ & _ & Hp & E)
                                         | (f & e & m & _ & _ & _ & _ & _ & E)]];
      rewrite E; unfold stateAfter; cbn [fst snd]; intros Herr;
      try discriminate Herr.
    exists f, res. repeat split; assumption.
  - destruct (handleProcess_cases st) as [(m & E) | [(f & res & _ & _ & _ & _ & _ & E)
                                         | (f & e & m & _ & _ & _ & _ & _ & E)]];
      rewrite E; unfold stateAfter; cbn [fst snd]; intros Herr.
    + reflexivity.
    + exfalso. apply Herr. reflexivity.
    + reflexivity.
Qed.

End CallbackProperties.

(** * Rounding and the aspect ratio *)

Lemma Math_round_integer (x : Q) (z : Z) :
  x == inject_Z z -> Math_round x = inject_Z z.
Proof.
  intros Hx. unfold Math_round. f_equal.
  rewrite (Qfloor_comp _ (inject_Z z + (1 # 2))) by (rewrite Hx; reflexivity).
  pose proof (Qfloor_le (inject_Z z + (1 # 2))) as Hle.
  pose proof (Qlt_floor (inject_Z z + (1 # 2))) as Hlt.
  set (k := Qfloor (inject_Z z + (1 # 2))) in *.
  unfold Qle, Qlt in *. cbn in *. lia.
Qed.

Lemma inject_Z_positive (z : Z) : (0 < z)%Z -> ~ inject_Z z == 0.
Proof.
  intros Hz C. assert (H : 0 < inject_Z z).
  { change 0 with (inject_Z 0). rewrite <- Zlt_Qlt. exact Hz. }
  rewrite C in H. discriminate H.
Qed.


Lemma gcd_abs (a b : Z) : Z.abs (gcd a b) = Z.gcd a b.
Proof.
  functional induction (gcd a b) as [a b Hb Hdec | a b Hb Hdec IH].
  - rewrite Z.gcd_0_r. reflexivity.
  - rewrite IH, Z.rem_eq by exact Hb.
    replace (a - b * (a ÷ b))%Z with (a + - (a ÷ b) * b)%Z by ring.
    rewrite Z.gcd_add_mult_diag_r. apply Z.gcd_comm.
Qed.

Lemma gcd_sign (a b : Z) : (0 <= a)%Z -> (0 <= b)%Z -> (0 <= gcd a b)%Z.
Proof.
  functional induction (gcd a b) as [a b Hb Hdec | a b Hb Hdec IH]; intros Ha Hb0.
  - exact Ha.
  - apply IH; [exact Hb0 |]. apply Z.rem_nonneg; assumption.
Qed.

(** X9.  The local [gcd] is Euclid's algorithm: on non-negative integers it
    returns the greatest common divisor, and on any integers it returns it
    up to sign; a zero second argument gives back the first. *)
Theorem gcd_is_greatest_common_divisor (a b : Z) :
  Z.abs (gcd a b) = Z.gcd a b /\
  ((0 <= a)%Z -> (0 <= b)%Z -> gcd a b = Z.gcd a b) /\
  gcd a 0 = a.
Proof.
  split; [apply gcd_abs | split].
  - intros Ha Hb. rewrite <- gcd_abs. symmetry. apply Z.abs_eq. apply gcd_sign; assumption.
  - rewrite gcd_equation. reflexivity.
Qed.

(** X10.  For an image of [w] x [h] pixels, both positive, the aspect ratio
    text is [w/g : h/g] with [g] the greatest common divisor: the two
    numbers shown are in lowest terms and stand in the ratio [w : h].
    Without natural dimensions the text is empty. *)
Theorem aspectRatioText_lowest_terms (w h : Z) :
  (0 < w)%Z -> (0 < h)%Z ->
  let g := Z.gcd w h in
  aspectRatioText (Some (mkDimensions (inject_Z w) (inject_Z h))) =
    (numberToString (inject_Z (w / g)) ++ ":" ++ numberToString (inject_Z (h / g)))%string /\
  Z.gcd (w / g) (h / g) = 1%Z /\
  ((w / g) * h = (h / g) * w)%Z /\
  aspectRatioText None = "".
Proof.
  intros Hw Hh. cbv zeta.
  assert (Hg : (0 < Z.gcd w h)%Z).
  { pose proof (Z.gcd_nonneg w h). assert (Z.gcd w h <> 0%Z); [| lia].
    intros C. apply Z.gcd_eq_0_l in C. lia. }
  destruct (Z.gcd_divide_l w h) as [kw Ekw].
  destruct (Z.gcd_divide_r w h) as [kh Ekh].
  assert (Dw : (w / Z.gcd w h = kw)%Z).
  { rewrite Ekw at 1. apply Z.div_mul. lia. }
  assert (Dh : (h / Z.gcd w h = kh)%Z).
  { rewrite Ekh at 1. apply Z.div_mul. lia. }
  pose proof (inject_Z_positive _ Hg) as Qg.
  split; [| split; [| split]].
  - unfold aspectRatioText. cbn [dim_width dim_height].
    rewrite !Qfloor_Z.
    assert (E : gcd w h = Z.gcd w h).
    { rewrite <- gcd_abs. symmetry. apply Z.abs_eq. apply gcd_sign; lia. }
    rewrite E.
    rewrite (Math_round_integer (inject_Z w / inject_Z (Z.gcd w h)) kw).
    + rewrite (Math_round_integer (inject_Z h / inject_Z (Z.gcd w h)) kh).
      * rewrite Dw, Dh. reflexivity.
      * rewrite Ekh at 1. rewrite inject_Z_mult. field. exact Qg.
    + rewrite Ekw at 1. rewrite inject_Z_mult. field. exact Qg.
  - apply Z.gcd_div_gcd; [lia | reflexivity].
  - rewrite Dw, Dh. clear Dw Dh Qg Hg.
    remember (Z.gcd w h) as g eqn:Eg. clear Eg. subst w h. ring.
  - reflexivity.
Qed.

(** * The component in its environment *)

Section EnvironmentProperties.

Variable createObjectURL : File -> string.

Lemma initial_consistent : Consistent initialSystem.
Proof.
  constructor; cbn; try reflexivity; try discriminate; try tauto.
Qed.

(** A callback that has no effect outside the component and leaves the
    file, the URLs and [isProcessing] alone keeps the page consistent. *)
Lemma quiet_consistent (s : System) (st' : State) (loading' : list string) :
  Consistent s ->
  isProcessing st' = isProcessing (ui s) ->
  objectUrlRef st' = objectUrlRef (ui s) ->
  imageUrl st' = imageUrl (ui s) ->
  file st' = file (ui s) ->
  (file (ui s) = None -> naturalDimensions st' = None /\ loading' = []) ->
  Consistent (mkSystem st' loading' (inFlight s) (liveUrls s)).
Proof.
  intros H Hp Hr Hu Hf Hn.
  constructor; cbn [ui loading inFlight liveUrls]; rewrite ?Hp, ?Hr, ?Hu, ?Hf.
  - apply (busy_one s H).
  - apply (idle_none s H).
  - apply (urls_held s H).
  - apply (url_shown s H).
  - apply (file_shown s H).
  - exact Hn.
Qed.

Lemma removeOne_head (url : string) (l : list string) :
  removeOne url (url :: l) = l.
Proof. cbn. rewrite String.eqb_refl. reflexivity. Qed.

(** Replacing the object URL keeps the page consistent. *)
Lemma turnover_consistent (s : System) (f : File) (st' : State) (extra : list string) :
  Consistent s ->
  isProcessing st' = isProcessing (ui s) ->
  objectUrlRef st' = Some (createObjectURL f) ->
  imageUrl st' = Some (createObjectURL f) ->
  file st' = Some f ->
  Consistent
    (fold_left (absorb createObjectURL) (urlTurnover createObjectURL (ui s) f)
       (mkSystem st' (loading s ++ extra) (inFlight s) (liveUrls s))).
Proof.
  intros H Hp Hr Hu Hf.
  assert (E : fold_left (absorb createObjectURL) (urlTurnover createObjectURL (ui s) f)
                (mkSystem st' (loading s ++ extra) (inFlight s) (liveUrls s)) =
              mkSystem st' (loading s ++ extra) (inFlight s) [createObjectURL f]).
  { unfold urlTurnover. pose proof (urls_held s H) as Hl.
    destruct (objectUrlRef (ui s)) as [old |]; cbn [held] in Hl;
      cbn [fold_left absorb ui loading inFlight liveUrls]; rewrite Hl.
    - rewrite removeOne_head. reflexivity.
    - reflexivity. }
  rewrite E.
  constructor; cbn [ui loading inFlight liveUrls]; rewrite ?Hp, ?Hr, ?Hu, ?Hf.
  - apply (busy_one s H).
  - apply (idle_none s H).
  - reflexivity.
  - reflexivity.
  - split; discriminate.
  - discriminate.
Qed.

Lemma fold_absorb_load (s : System) (st' : State) (f : File) (src : string) :
  fold_left (absorb createObjectURL)
    (urlTurnover createObjectURL (ui s) f ++ [LoadImage src])
    (mkSystem st' (loading s) (inFlight s) (liveUrls s)) =
  fold_left (absorb createObjectURL) (urlTurnover createObjectURL (ui s) f)
    (mkSystem st' (loading s ++ [src]) (inFlight s) (liveUrls s)).
Proof.
  unfold urlTurnover. destruct (objectUrlRef (ui s)); reflexivity.
Qed.

Lemma step_consistent (s s' : System) :
  Consistent s -> step createObjectURL s s' -> Consistent s'.
Proof.
  intros H Hstep.
  assert (Hquiet : forall st',
            isProcessing st' = isProcessing (ui s) ->
            objectUrlRef st' = objectUrlRef (ui s) ->
            imageUrl st' = imageUrl (ui s) ->
            file st' = file (ui s) ->
            naturalDimensions st' = naturalDimensions (ui s) ->
            Consistent (mkSystem st' (loading s) (inFlight s) (liveUrls s))).
  { intros st' Hp Hr Hu Hf Hn. apply quiet_consistent; try assumption.
    rewrite Hn. apply (nothing_without_file s H). }
  assert (Hloading : forall before src after,
            loading s = (before ++ src :: after)%list -> file (ui s) <> None).
  { intros before src after E C. destruct (nothing_without_file s H C) as [_ L].
    rewrite L in E. destruct before; discriminate E. }
  destruct Hstep.
  - (* a file is picked *)
    destruct selected as [f |]; [| apply Hquiet; reflexivity].
    destruct (startsWith (file_type f) "image/") eqn:Himg.
    + unfold perform. rewrite (handleFileChange_image _ _ _ Himg).
      unfold effectsOf, stateAfter. cbn [fst snd].
      rewrite fold_absorb_load.
      apply turnover_consistent; [exact H | reflexivity ..].
    + destruct (file_type f =? "application/pdf")%string eqn:Hpdf.
      * apply String.eqb_eq in Hpdf. unfold perform.
        rewrite (handleFileChange_pdf _ _ _ Hpdf).
        unfold effectsOf, stateAfter. cbn [fst snd].
        pose proof (turnover_consistent s f
                      (withNaturalDimensions None
                         (withError
                            (Some "PDF import is not supported yet. Please select an image format.")
                            (afterImagePicked (createObjectURL f) (ui s) f))) []
                      H eq_refl eq_refl eq_refl eq_refl) as T.
        rewrite app_nil_r in T. exact T.
      * unfold perform, handleFileChange. rewrite Himg, Hpdf. cbn [negb andb].
        apply Hquiet; reflexivity.
  - (* an image has loaded *)
    unfold perform. cbn. apply quiet_consistent; try assumption; try reflexivity.
    intros C. exfalso. exact (Hloading _ _ _ H0 C).
  - (* an image has failed to load *)
    unfold perform. cbn. apply quiet_consistent; try assumption; try reflexivity.
    intros C. exfalso. exact (Hloading _ _ _ H0 C).
  - (* width typed *)
    unfold perform, handleWidthChange, bind, snapshot, effectsOf, stateAfter.
    cbn [fst snd ui].
    destruct (naturalDimensions (ui s)) eqn:N; [| congruence].
    destruct (maintainAspect (ui s)); cbn; apply Hquiet; cbn; congruence.
  - (* height typed *)
    unfold perform, handleHeightChange, bind, snapshot, effectsOf, stateAfter.
    cbn [fst snd ui].
    destruct (naturalDimensions (ui s)) eqn:N; [| congruence].
    destruct (maintainAspect (ui s)); cbn; apply Hquiet; cbn; congruence.
  - apply Hquiet; reflexivity.
  - apply Hquiet; reflexivity.
  - apply Hquiet; reflexivity.
  - apply Hquiet; reflexivity.
  - apply Hquiet; reflexivity.
  - apply Hquiet; reflexivity.
  - apply Hquiet; reflexivity.
  - (* the button is pressed *)
    rename H2 into Hidle.
    unfold perform, handleProcess_started, bind, snapshot, effectsOf, stateAfter.
    cbn [fst snd ui].
    destruct (file (ui s)) as [f |] eqn:Hf; [| cbn; apply Hquiet; cbn; congruence].
    destruct (naturalDimensions (ui s)) as [nd |] eqn:Hn;
      [| cbn; apply Hquiet; cbn; congruence].
    destruct (lessOrEqual (targetWidth (ui s)) 0 || lessOrEqual (targetHeight (ui s)) 0)
      eqn:G; [cbn; apply Hquiet; cbn; congruence |].
    pose proof (idle_none s H Hidle) as Hnone.
    cbn. rewrite Hnone. cbn [app].
    constructor; cbn [ui loading inFlight liveUrls isProcessing objectUrlRef imageUrl
                        file naturalDimensions withError withIsProcessing].
    + intros _. eexists. reflexivity.
    + discriminate.
    + apply (urls_held s H).
    + apply (url_shown s H).
    + apply (file_shown s H).
    + rewrite Hf. discriminate.
  - (* a promise settles *)
    rename H0 into Hin.
    assert (Hone : before = [] /\ after = []).
    { destruct (isProcessing (ui s)) eqn:P.
      - destruct (busy_one s H P) as [o Ho]. rewrite Ho in Hin.
        destruct before as [| b before]; cbn in Hin.
        + injection Hin as _ <-. split; reflexivity.
        + injection Hin as _ Hin. destruct before; discriminate Hin.
      - rewrite (idle_none s H P) in Hin. destruct before; discriminate Hin. }
    destruct Hone as [-> ->].
    unfold perform, handleProcess_settled, bind, effectsOf, stateAfter.
    destruct outcome as [res | e]; cbn;
      (constructor; cbn [ui loading inFlight liveUrls isProcessing objectUrlRef imageUrl
                           file naturalDimensions];
       [ discriminate
       | reflexivity
       | apply (urls_held s H)
       | apply (url_shown s H)
       | apply (file_shown s H)
       | apply (nothing_without_file s H) ]).
Qed.

Lemma reachable_consistent (s : System) :
  reachable createObjectURL s -> Consistent s.
Proof.
  induction 1 as [| s s' _ IH Hstep].
  - apply initial_consistent.
  - exact (step_consistent s s' IH Hstep).
Qed.

End EnvironmentProperties.

(** X11.  Calls of [processImage] never overlap.  Whatever the user and the
    browser do, at most one promise is pending, and one is pending exactly
    while [isProcessing] is true. *)
Theorem processImage_calls_never_overlap
    (createObjectURL : File -> string) (s : System) :
  reachable createObjectURL s ->
  (length (inFlight s) <= 1)%nat /\
  (isProcessing (ui s) = true <-> inFlight s <> []).
Proof.
  intros R. pose proof (reachable_consistent createObjectURL s R) as H.
  split.
  - destruct (isProcessing (ui s)) eqn:P.
    + destruct (busy_one s H P) as [o ->]. cbn. lia.
    + rewrite (idle_none s H P). cbn. lia.
  - split.
    + intros P. destruct (busy_one s H P) as [o ->]. discriminate.
    + intros N. destruct (isProcessing (ui s)) eqn:P; [reflexivity |].
      exfalso. apply N. apply (idle_none s H P).
Qed.

(** X12.  Object URLs do not pile up.  Whatever the user and the browser
    do, the only object URL created by the component and not yet revoked
    is the one held by the ref, and after the cleanup on unmount none is
    left. *)
Theorem object_urls_never_leak
    (createObjectURL : File -> string) (s : System) :
  reachable createObjectURL s ->
  liveUrls s = held (objectUrlRef (ui s)) /\
  (length (liveUrls s) <= 1)%nat /\
  liveUrls (perform createObjectURL unmount s) = [] /\
  objectUrlRef (ui (perform createObjectURL unmount s)) = None.
Proof.
  intros R. pose proof (reachable_consistent createObjectURL s R) as H.
  pose proof (urls_held s H) as Hl.
  split; [exact Hl | split].
  - rewrite Hl. destruct (objectUrlRef (ui s)); cbn; lia.
  - unfold perform, unmount, bind, snapshot, effectsOf, stateAfter. cbn [fst snd].
    destruct (objectUrlRef (ui s)) as [old |] eqn:Href; cbn [held] in Hl.
    + cbn. rewrite Hl, removeOne_head. split; reflexivity.
    + cbn. rewrite Hl, Href. split; reflexivity.
Qed.

(** X13.  Whatever the user and the browser do, the image shown is the one
    whose URL the ref holds, a URL is shown exactly when a file is stored,
    and natural dimensions or a pending image load only exist with a
    stored file. *)
Theorem dimensions_need_a_file
    (createObjectURL : File -> string) (s : System) :
  reachable createObjectURL s ->
  imageUrl (ui s) = objectUrlRef (ui s) /\
  (file (ui s) = None <-> imageUrl (ui s) = None) /\
  (naturalDimensions (ui s) <> None -> file (ui s) <> None) /\
  (loading s <> [] -> file (ui s) <> None).
Proof.
  intros R. pose proof (reachable_consistent createObjectURL s R) as H.
  split; [apply (url_shown s H) | split; [apply (file_shown s H) | split]].
  - intros N C. apply N. apply (nothing_without_file s H C).
  - intros N C. apply N. apply (nothing_without_file s H C).
Qed.

(** * The further statements on concrete inputs *)

Lemma busySystem_reachable : reachable blobUrl busySystem.
Proof.
  apply reachable_step with loadedSystem.
  - apply reachable_step with pickedSystem.
    + apply reachable_step with initialSystem.
      * apply reachable_initial.
      * apply (step_file_picked blobUrl initialSystem (Some holiday)).
    + apply (step_image_loaded blobUrl pickedSystem [] "blob:holiday.jpg" [] 4000 3000).
      reflexivity.
  - apply (step_process_clicked blobUrl loadedSystem).
    + discriminate.
    + discriminate.
    + reflexivity.
Qed.

Example busySystem_in_flight :
  map opt_originalName (inFlight busySystem) = ["holiday.jpg"] /\
  liveUrls busySystem = ["blob:holiday.jpg"] /\
  isProcessing (ui busySystem) = true.
Proof. repeat split; reflexivity. Qed.

Lemma handleProcess_error_iff_failure_witness :
  error (stateAfter (handleProcess succeeding loaded)) = None /\
  error (stateAfter (handleProcess failing loaded)) <> None.
Proof.
  split.
  - apply (proj2 (handleProcess_error_iff_failure succeeding loaded)).
    exists holiday. eexists. repeat split; try reflexivity; try discriminate.
  - intros C.
    apply (proj1 (handleProcess_error_iff_failure failing loaded)) in C.
    destruct C as (f & res & _ & _ & _ & _ & C & _). discriminate C.
Defined.

Lemma handleProcess_repeatable_witness :
  In (CallProcessImage (processOptions loaded holiday))
     (effectsOf (handleProcess succeeding (stateAfter (handleProcess succeeding loaded)))).
Proof.
  apply (proj1 (proj2 (handleProcess_repeatable succeeding loaded) _)).
  left. reflexivity.
Defined.

Lemma handleFileChange_accepts_image_witness :
  startsWith (file_type holiday) "image/" = true /\
  effectsOf (handleFileChange blobUrl (Some holiday) loadedWithResult) =
    [RevokeObjectURL "blob:holiday.jpg"; CreateObjectURL holiday;
     LoadImage "blob:holiday.jpg"] /\
  processed (stateAfter (handleFileChange blobUrl (Some holiday) loadedWithResult)) = None.
Proof.
  destruct (handleFileChange_accepts_image blobUrl loadedWithResult holiday eq_refl)
    as [He Hs].
  split; [reflexivity | split; [exact He |]]. rewrite Hs. reflexivity.
Defined.

Lemma upload_load_process_defaults_witness :
  exists q rest,
    effectsOf (handleProcess succeeding
                 (stateAfter (image_onload 4000 3000
                    (stateAfter (handleFileChange blobUrl (Some holiday) initialState))))) =
      CallProcessImage (mkProcessOptions holiday 4000 3000 jpeg q None "holiday.jpg") :: rest /\
    q == 4 # 5.
Proof.
  apply (upload_load_process_defaults succeeding blobUrl initialState holiday 4000 3000);
    reflexivity.
Defined.

Lemma late_onload_after_pdf_reaches_processImage_witness :
  exists o rest,
    effectsOf (handleProcess succeeding
                 (stateAfter (image_onload 4000 3000
                    (stateAfter (handleFileChange blobUrl (Some report) loaded))))) =
      CallProcessImage o :: rest /\
    opt_file o = report /\ opt_targetWidth o = 4000 /\ opt_targetHeight o = 3000.
Proof.
  apply (late_onload_after_pdf_reaches_processImage succeeding blobUrl loaded report 4000 3000);
    reflexivity.
Defined.

Lemma handleDownload_after_handleProcess_witness :
  handleDownload (stateAfter (handleProcess failing loadedWithResult)) =
    handleDownload loadedWithResult.
Proof.
  apply (proj2 (handleDownload_after_handleProcess failing loadedWithResult)).
  discriminate.
Defined.


Lemma gcd_is_greatest_common_divisor_witness :
  gcd 4000 3000 = Z.gcd 4000 3000.
Proof.
  apply (gcd_is_greatest_common_divisor 4000 3000); lia.
Defined.

Lemma aspectRatioText_lowest_terms_witness :
  aspectRatioText (Some (mkDimensions (inject_Z 1920) (inject_Z 1080))) =
    (numberToString (inject_Z (1920 / Z.gcd 1920 1080)) ++ ":" ++
     numberToString (inject_Z (1080 / Z.gcd 1920 1080)))%string.
Proof.
  apply (aspectRatioText_lowest_terms 1920 1080); reflexivity.
Defined.

Example aspectRatioText_full_hd :
  aspectRatioText (Some (mkDimensions 1920 1080)) = "16:9".
Proof. reflexivity. Qed.

Lemma processImage_calls_never_overlap_witness :
  (length (inFlight busySystem) <= 1)%nat /\
  (isProcessing (ui busySystem) = true <-> inFlight busySystem <> []).
Proof.
  exact (processImage_calls_never_overlap blobUrl busySystem busySystem_reachable).
Defined.

Lemma object_urls_never_leak_witness :
  liveUrls busySystem = held (objectUrlRef (ui busySystem)) /\
  (length (liveUrls busySystem) <= 1)%nat /\
  liveUrls (perform blobUrl unmount busySystem) = [] /\
  objectUrlRef (ui (perform blobUrl unmount busySystem)) = None.
Proof.
  exact (object_urls_never_leak blobUrl busySystem busySystem_reachable).
Defined.

Lemma dimensions_need_a_file_witness :
  imageUrl (ui busySystem) = objectUrlRef (ui busySystem) /\
  (file (ui busySystem) = None <-> imageUrl (ui busySystem) = None) /\
  (naturalDimensions (ui busySystem) <> None -> file (ui busySystem) <> None) /\
  (loading busySystem <> [] -> file (ui busySystem) <> None).
Proof.
  exact (dimensions_need_a_file blobUrl busySystem busySystem_reachable).
Defined.

(** C8.  A PDF is not kept from [processImage].  Picking [report] while
    [holiday] is still loading sets the PDF error and clears
    [naturalDimensions], and a [handleProcess] at that point makes no call.
    But when the load event of [holiday] then arrives, [image.onload] sets
    the natural dimensions again without regard to the file now stored: the
    button is there and enabled, and [handleProcess] calls [processImage]
    with the PDF file. *)
Theorem pdf_reaches_processImage :
  error (ui pdfPickedSystem) =
    Some "PDF import is not supported yet. Please select an image format." /\
  naturalDimensions (ui pdfPickedSystem) = None /\
  effectsOf (handleProcess succeeding (ui pdfPickedSystem)) = [] /\
  reachable blobUrl revivedSystem /\
  (imageUrl (ui revivedSystem) <> None /\
   naturalDimensions (ui revivedSystem) <> None /\
   isProcessing (ui revivedSystem) = false) /\
  exists o,
    effectsOf (handleProcess succeeding (ui revivedSystem)) = [CallProcessImage o] /\
    opt_file o = report /\
    file_type (opt_file o) = "application/pdf".
Proof.
  split; [vm_compute; reflexivity |].
  split; [vm_compute; reflexivity |].
  split; [vm_compute; reflexivity |].
  split; [| split].
  - apply reachable_step with pdfPickedSystem.
    + apply reachable_step with pickedSystem.
      * apply reachable_step with initialSystem.
        -- apply reachable_initial.
        -- apply (step_file_picked blobUrl initialSystem (Some holiday)).
      * apply (step_file_picked blobUrl pickedSystem (Some report)).
    + apply (step_image_loaded blobUrl pdfPickedSystem [] "blob:holiday.jpg" [] 4000 3000).
      vm_compute. reflexivity.
  - vm_compute. split; [discriminate | split; [discriminate | reflexivity]].
  - exists (processOptions (ui revivedSystem) report).
    vm_compute. split; [reflexivity | split; reflexivity].
Qed.
